(** * Case-study modal navigators of the portfolio site

    A shallow embedding of the navigation logic of the two case-study
    modals, [src/AdminCaseStudy.jsx] (one image per frame) and
    [src/UserCaseStudy.jsx] (one panel per feature), together with the
    properties the specification states about them.

    Conventions of the embedding.
    - A React component is a record holding its props, its [useState]
      cells and its refs; an event handler or effect body is a function
      from that record to the record after the handler has run and React
      has re-rendered.  Every handler below calls each setter at most once
      and reads state only through the closure of the render it was created
      in, so sequential state passing agrees with React's batching.
    - The DOM scroll container is a record of the four properties the code
      reads ([scrollLeft], [scrollTop], [offsetWidth], [offsetHeight]).
      Pixel quantities are taken to be integers.  A smooth [scrollTo] does
      not move the container at once; it is recorded as a request.
    - JavaScript numbers that can reach a frame index are the integers and
      the three non-finite values produced by a division by zero. *)

From Stdlib Require Import Ascii.
From stdpp Require Import base numbers option list strings pretty gmap.

Local Open Scope Z_scope.

(** ** JavaScript numbers *)

Module Js.

Inductive Number : Type :=
  | Num (z : Z)
  | NaN
  | PosInfinity
  | NegInfinity.

#[global] Instance Number_eq_dec : EqDecision Number.
Proof. solve_decision. Defined.

Definition neg (a : Number) : Number :=
  match a with
  | Num z => Num (- z)
  | NaN => NaN
  | PosInfinity => NegInfinity
  | NegInfinity => PosInfinity
  end.

(** [a + b] *)
Definition add (a b : Number) : Number :=
  match a, b with
  | Num x, Num y => Num (x + y)
  | NaN, _ | _, NaN => NaN
  | PosInfinity, NegInfinity | NegInfinity, PosInfinity => NaN
  | PosInfinity, _ | _, PosInfinity => PosInfinity
  | NegInfinity, _ | _, NegInfinity => NegInfinity
  end.

(** [a - b] *)
Definition sub (a b : Number) : Number := add a (neg b).

(** The sign of a number that is not [NaN], as -1, 0 or 1. *)
Definition sgn (a : Number) : Z :=
  match a with
  | Num z => Z.sgn z
  | PosInfinity => 1
  | NegInfinity => -1
  | NaN => 0
  end.

(** [a * b] *)
Definition mul (a b : Number) : Number :=
  match a, b with
  | Num x, Num y => Num (x * y)
  | NaN, _ | _, NaN => NaN
  | _, _ =>
      match sgn a * sgn b with
      | Z0 => NaN
      | Zpos _ => PosInfinity
      | Zneg _ => NegInfinity
      end
  end.

(** [a < b]; every comparison with [NaN] is false. *)
Definition lt (a b : Number) : bool :=
  match a, b with
  | Num x, Num y => bool_decide (x < y)
  | NaN, _ | _, NaN => false
  | NegInfinity, NegInfinity => false
  | NegInfinity, _ => true
  | _, NegInfinity => false
  | PosInfinity, _ => false
  | _, PosInfinity => true
  end.

(** [a >= b]; every comparison with [NaN] is false. *)
Definition ge (a b : Number) : bool :=
  match a, b with
  | Num x, Num y => bool_decide (y ≤ x)
  | NaN, _ | _, NaN => false
  | PosInfinity, _ => true
  | _, NegInfinity => true
  | _, PosInfinity => false
  | NegInfinity, _ => false
  end.

(** [Math.round(p / s)] for integers [p] and [s].  [Math.round] takes the
    nearest integer and rounds a half towards plus infinity, that is
    [floor (p/s + 1/2)]; a zero divisor gives [NaN] for [0/0] and an
    infinity of the sign of [p] otherwise, which [Math.round] returns
    unchanged. *)
Definition round_div (p s : Z) : Number :=
  if decide (s = 0) then
    match p with
    | Z0 => NaN
    | Zpos _ => PosInfinity
    | Zneg _ => NegInfinity
    end
  else Num ((2 * p + s) `div` (2 * s)).

End Js.

(** ** Content tree *)

Record Mockup : Type := {
  src : string;
  alt : string;
  loaded : bool
}.

Record Panel : Type := {
  label : string;
  title : string;
  description : string;
  mockups : list Mockup
}.

Record CaseStudy : Type := {
  cs_title : string;
  cs_description : string;
  panels : list Panel
}.

(** ** Arrays *)

(** [arr.push(x)] on the array threaded as state. *)
Definition push {A} (arr : list A) (x : A) : list A := arr ++ [x].

(** [l.forEach((x, i) => ...)] where the callback updates a state [St];
    [forEach_from] is the loop started at index [i]. *)
Fixpoint forEach_from {A St} (f : St → A → nat → St) (i : nat) (l : list A)
    (s : St) : St :=
  match l with
  | [] => s
  | x :: l' => forEach_from f (S i) l' (f s x i)
  end.

Definition forEach {A St} (f : St → A → nat → St) (l : list A) (s : St) : St :=
  forEach_from f 0%nat l s.

(** ** DOM scroll container *)

Record Container : Type := {
  scrollLeft : Z;
  scrollTop : Z;
  offsetWidth : Z;
  offsetHeight : Z
}.

(** The argument of [container.scrollTo({top | left, behavior: 'smooth'})]. *)
Inductive ScrollToOptions : Type :=
  | ScrollTop (top : Js.Number)
  | ScrollLeft (left : Js.Number).

(** [container.scrollLeft = 0; container.scrollTop = 0] *)
Definition scrollToOrigin (c : Container) : Container :=
  {| scrollLeft := 0; scrollTop := 0;
     offsetWidth := offsetWidth c; offsetHeight := offsetHeight c |}.

(** The two quantities the handlers read off the container, by layout
    mode: the extent of one page and the scroll offset along the scroll
    axis. *)
Definition frameExtent (vertical : bool) (c : Container) : Z :=
  if vertical then offsetHeight c else offsetWidth c.

Definition scrollOffset (vertical : bool) (c : Container) : Z :=
  if vertical then scrollTop c else scrollLeft c.

(** The request a navigation to page [index] issues, by layout mode. *)
Definition scrollRequest (vertical : bool) (c : Container) (index : Z)
    : ScrollToOptions :=
  if vertical then ScrollTop (Js.Num (offsetHeight c * index))
  else ScrollLeft (Js.Num (offsetWidth c * index)).

(** A frame index lies in [0, frameCount - 1]. *)
Definition inFrameRange (n : Js.Number) (frameCount : nat) : Prop :=
  ∃ i, n = Js.Num i ∧ 0 ≤ i ≤ Z.of_nat frameCount - 1.

(** ** AdminCaseStudy: one image per frame *)

Module Admin.

(** The object pushed for every mockup ([type: 'content']). *)
Record ContentFrame : Type := {
  panelLabel : string;
  panelTitle : string;
  frameDescription : string;
  mockup : Mockup;
  imageNumber : nat;
  totalImages : nat;
  panelIndex : nat;
  isFirstInPanel : bool;
  isLastInPanel : bool
}.

(** A frame is tagged by its [type] field, ['intro'] or ['content']. *)
Inductive Frame : Type :=
  | Intro (title description : string)
  | Content (c : ContentFrame).

(** The object literal of the inner [forEach] callback. *)
Definition contentFrame (panel : Panel) (panelIndex : nat)
    (mockup : Mockup) (mockupIndex : nat) : Frame :=
  Content {|
    panelLabel := label panel;
    panelTitle := title panel;
    frameDescription := description panel;
    mockup := mockup;
    imageNumber := (mockupIndex + 1)%nat;
    totalImages := length (mockups panel);
    panelIndex := panelIndex;
    isFirstInPanel := bool_decide (mockupIndex = 0%nat);
    isLastInPanel := 
      bool_decide (Z.of_nat mockupIndex = Z.of_nat (length (mockups panel)) - 1)
  |}.

(** The [useMemo] body: [if (!caseStudy) return []], then the intro frame
    is pushed and the two nested [forEach] loops push one frame per mockup
    onto the same array. *)
Definition frames (caseStudy : option CaseStudy) : list Frame :=
  match caseStudy with
  | None => []
  | Some caseStudy =>
      let allFrames := [] in
      let allFrames :=
        push allFrames (Intro (cs_title caseStudy) (cs_description caseStudy)) in
      forEach (λ allFrames panel panelIndex,
                 forEach (λ allFrames mockup mockupIndex,
                            push allFrames
                              (contentFrame panel panelIndex mockup mockupIndex))
                         (mockups panel) allFrames)
              (panels caseStudy) allFrames
  end.

(** Two descriptions used to state where a mockup's frame lies: the
    frames contributed by one panel, and the index of the first frame of
    panel [p] (the intro frame and the mockups of the panels before
    it). *)
Definition panelFrames (panelIndex : nat) (panel : Panel) : list Frame :=
  imap (λ mockupIndex mockup, contentFrame panel panelIndex mockup mockupIndex)
       (mockups panel).

Definition frameOffset (cs : CaseStudy) (p : nat) : nat :=
  (1 + sum_list (length ∘ mockups <$> take p (panels cs)))%nat.

(** The component: props, state cells, the container ref, and the smooth
    scrolls requested so far (oldest first). *)
Record Modal : Type := {
  isOpen : bool;
  caseStudy : option CaseStudy;
  currentFrame : Js.Number;
  zoomedFrame : option nat;
  isVerticalLayout : bool;
  showKeyboardHints : bool;
  scrollContainerRef : option Container;
  scrollRequests : list ScrollToOptions
}.

Definition setIsOpen (b : bool) (w : Modal) : Modal :=
  {| isOpen := b; caseStudy := caseStudy w; currentFrame := currentFrame w;
     zoomedFrame := zoomedFrame w; isVerticalLayout := isVerticalLayout w;
     showKeyboardHints := showKeyboardHints w;
     scrollContainerRef := scrollContainerRef w;
     scrollRequests := scrollRequests w |}.

Definition setCurrentFrame (v : Js.Number) (w : Modal) : Modal :=
  {| isOpen := isOpen w; caseStudy := caseStudy w; currentFrame := v;
     zoomedFrame := zoomedFrame w; isVerticalLayout := isVerticalLayout w;
     showKeyboardHints := showKeyboardHints w;
     scrollContainerRef := scrollContainerRef w;
     scrollRequests := scrollRequests w |}.

Definition setZoomedFrame (v : option nat) (w : Modal) : Modal :=
  {| isOpen := isOpen w; caseStudy := caseStudy w; currentFrame := currentFrame w;
     zoomedFrame := v; isVerticalLayout := isVerticalLayout w;
     showKeyboardHints := showKeyboardHints w;
     scrollContainerRef := scrollContainerRef w;
     scrollRequests := scrollRequests w |}.

Definition setIsVerticalLayout (b : bool) (w : Modal) : Modal :=
  {| isOpen := isOpen w; caseStudy := caseStudy w; currentFrame := currentFrame w;
     zoomedFrame := zoomedFrame w; isVerticalLayout := b;
     showKeyboardHints := showKeyboardHints w;
     scrollContainerRef := scrollContainerRef w;
     scrollRequests := scrollRequests w |}.

Definition setShowKeyboardHints (b : bool) (w : Modal) : Modal :=
  {| isOpen := isOpen w; caseStudy := caseStudy w; currentFrame := currentFrame w;
     zoomedFrame := zoomedFrame w; isVerticalLayout := isVerticalLayout w;
     showKeyboardHints := b;
     scrollContainerRef := scrollContainerRef w;
     scrollRequests := scrollRequests w |}.

(** The DOM element behind the ref is replaced or re-measured. *)
Definition setContainer (c : option Container) (w : Modal) : Modal :=
  {| isOpen := isOpen w; caseStudy := caseStudy w; currentFrame := currentFrame w;
     zoomedFrame := zoomedFrame w; isVerticalLayout := isVerticalLayout w;
     showKeyboardHints := showKeyboardHints w;
     scrollContainerRef := c;
     scrollRequests := scrollRequests w |}.

(** [container.scrollTo(o)] *)
Definition scrollTo (o : ScrollToOptions) (w : Modal) : Modal :=
  {| isOpen := isOpen w; caseStudy := caseStudy w; currentFrame := currentFrame w;
     zoomedFrame := zoomedFrame w; isVerticalLayout := isVerticalLayout w;
     showKeyboardHints := showKeyboardHints w;
     scrollContainerRef := scrollContainerRef w;
     scrollRequests := push (scrollRequests w) o |}.

(** [frames.length] of the current render. *)
Definition frameCount (w : Modal) : nat := length (frames (caseStudy w)).

(** The component as first rendered: the [useState] and [useRef] initial
    values. *)
Definition mount (isOpen : bool) (caseStudy : option CaseStudy) : Modal :=
  {| isOpen := isOpen; caseStudy := caseStudy; currentFrame := Js.Num 0;
     zoomedFrame := None; isVerticalLayout := false;
     showKeyboardHints := false; scrollContainerRef := None;
     scrollRequests := [] |}.

(** [checkLayout], run on mount and on every [resize] event, with
    [window.innerWidth] as argument. *)
Definition checkLayout (innerWidth : Z) (w : Modal) : Modal :=
  let w := setIsVerticalLayout (bool_decide (innerWidth < 1025)) w in
  setShowKeyboardHints (bool_decide (1024 ≤ innerWidth)) w.

(** The effect "Reset to first frame when modal opens", dependencies
    [[isOpen]]. *)
Definition resetOnOpen (w : Modal) : Modal :=
  if isOpen w then
    let w := setCurrentFrame (Js.Num 0) w in
    let w := setZoomedFrame None w in
    match scrollContainerRef w with
    | Some container => setContainer (Some (scrollToOrigin container)) w
    | None => w
    end
  else w.

(** The parent's [openAdminCaseStudy]: the prop [isOpen] becomes [true],
    the component re-renders and the effects depending on [isOpen] run.
    When [isOpen] is [true] already nothing changes and no effect runs. *)
Definition openAdminCaseStudy (w : Modal) : Modal :=
  if isOpen w then w else resetOnOpen (setIsOpen true w).

(** The parent's [closeAdminCaseStudy], passed as [onClose]. *)
Definition onClose (w : Modal) : Modal :=
  resetOnOpen (setIsOpen false w).

(** The body of [navigateToFrame] for the closure created by a render in
    which [frames.length] was [framesLength] and [isVerticalLayout] was
    [vertical]; the container is read from the ref when the call is
    made. *)
Definition navigateToFrame_closure (framesLength : nat) (vertical : bool)
    (index : Js.Number) (w : Modal) : Modal :=
  if Js.lt index (Js.Num 0) || Js.ge index (Js.Num (Z.of_nat framesLength)) then w
  else
    match scrollContainerRef w with
    | Some container =>
        let frameSize :=
          if vertical then offsetHeight container else offsetWidth container in
        let w :=
          if vertical then
            scrollTo (ScrollTop (Js.mul (Js.Num frameSize) index)) w
          else
            scrollTo (ScrollLeft (Js.mul (Js.Num frameSize) index)) w in
        setCurrentFrame index w
    | None => w
    end.

(** [navigateToFrame] of the current render ([useCallback] with
    dependencies [[frames.length, isVerticalLayout]]). *)
Definition navigateToFrame (index : Js.Number) (w : Modal) : Modal :=
  navigateToFrame_closure (length (frames (caseStudy w))) (isVerticalLayout w)
    index w.

(** [handleKeyDown].  The effect installing it depends on
    [[isOpen, currentFrame, zoomedFrame, onClose, caseStudy]] but not on
    [navigateToFrame], so the [navigateToFrame] it calls may come from an
    earlier render with the same [caseStudy] and another layout flag,
    [capturedVertical]. *)
Definition handleKeyDown (capturedVertical : bool) (key : string)
    (w : Modal) : Modal :=
  let navigateToFrame :=
    navigateToFrame_closure (length (frames (caseStudy w))) capturedVertical in
  if bool_decide (key = "Escape") then
    match zoomedFrame w with
    | Some _ => setZoomedFrame None w
    | None => onClose w
    end
  else if bool_decide (key = "ArrowRight") || bool_decide (key = "ArrowDown") then
    navigateToFrame (Js.add (currentFrame w) (Js.Num 1)) w
  else if bool_decide (key = "ArrowLeft") || bool_decide (key = "ArrowUp") then
    navigateToFrame (Js.sub (currentFrame w) (Js.Num 1)) w
  else w.

(** The [keydown] listener is installed only while
    [isOpen && caseStudy]. *)
Definition keydown (capturedVertical : bool) (key : string) (w : Modal) : Modal :=
  if isOpen w && bool_decide (is_Some (caseStudy w)) then
    handleKeyDown capturedVertical key w
  else w.

(** The function passed to [throttle] in [handleScroll]; its closure is
    rebuilt whenever [isVerticalLayout] changes. *)
Definition handleScroll (w : Modal) : Modal :=
  match scrollContainerRef w with
  | None => w
  | Some container =>
      let scrollPosition :=
        if isVerticalLayout w then scrollTop container else scrollLeft container in
      let containerSize :=
        if isVerticalLayout w then offsetHeight container
        else offsetWidth container in
      let activeIndex := Js.round_div scrollPosition containerSize in
      setCurrentFrame activeIndex w
  end.

(** The [onClick] of a frame's image:
    [setZoomedFrame(zoomedFrame === frameIndex ? null : frameIndex)]. *)
Definition toggleZoom (frameIndex : nat) (w : Modal) : Modal :=
  setZoomedFrame
    (if bool_decide (zoomedFrame w = Some frameIndex) then None
     else Some frameIndex) w.

End Admin.

(** ** UserCaseStudy: one panel per feature *)

Module User.

(** The component: props, state cells, the container ref, and the smooth
    scrolls requested so far (oldest first).  [activeImageIndex] holds the
    key of the zoomed image, a string, or [null]. *)
Record Modal : Type := {
  isOpen : bool;
  caseStudy : option CaseStudy;
  currentPanel : Js.Number;
  activeImageIndex : option string;
  isVerticalLayout : bool;
  showKeyboardHints : bool;
  scrollContainerRef : option Container;
  scrollRequests : list ScrollToOptions
}.

Definition setIsOpen (b : bool) (w : Modal) : Modal :=
  {| isOpen := b; caseStudy := caseStudy w; currentPanel := currentPanel w;
     activeImageIndex := activeImageIndex w;
     isVerticalLayout := isVerticalLayout w;
     showKeyboardHints := showKeyboardHints w;
     scrollContainerRef := scrollContainerRef w;
     scrollRequests := scrollRequests w |}.

Definition setCurrentPanel (v : Js.Number) (w : Modal) : Modal :=
  {| isOpen := isOpen w; caseStudy := caseStudy w; currentPanel := v;
     activeImageIndex := activeImageIndex w;
     isVerticalLayout := isVerticalLayout w;
     showKeyboardHints := showKeyboardHints w;
     scrollContainerRef := scrollContainerRef w;
     scrollRequests := scrollRequests w |}.

Definition setActiveImageIndex (v : option string) (w : Modal) : Modal :=
  {| isOpen := isOpen w; caseStudy := caseStudy w; currentPanel := currentPanel w;
     activeImageIndex := v;
     isVerticalLayout := isVerticalLayout w;
     showKeyboardHints := showKeyboardHints w;
     scrollContainerRef := scrollContainerRef w;
     scrollRequests := scrollRequests w |}.

Definition setIsVerticalLayout (b : bool) (w : Modal) : Modal :=
  {| isOpen := isOpen w; caseStudy := caseStudy w; currentPanel := currentPanel w;
     activeImageIndex := activeImageIndex w;
     isVerticalLayout := b;
     showKeyboardHints := showKeyboardHints w;
     scrollContainerRef := scrollContainerRef w;
     scrollRequests := scrollRequests w |}.

Definition setShowKeyboardHints (b : bool) (w : Modal) : Modal :=
  {| isOpen := isOpen w; caseStudy := caseStudy w; currentPanel := currentPanel w;
     activeImageIndex := activeImageIndex w;
     isVerticalLayout := isVerticalLayout w;
     showKeyboardHints := b;
     scrollContainerRef := scrollContainerRef w;
     scrollRequests := scrollRequests w |}.

(** The DOM element behind the ref is replaced or re-measured. *)
Definition setContainer (c : option Container) (w : Modal) : Modal :=
  {| isOpen := isOpen w; caseStudy := caseStudy w; currentPanel := currentPanel w;
     activeImageIndex := activeImageIndex w;
     isVerticalLayout := isVerticalLayout w;
     showKeyboardHints := showKeyboardHints w;
     scrollContainerRef := c;
     scrollRequests := scrollRequests w |}.

(** [container.scrollTo(o)] *)
Definition scrollTo (o : ScrollToOptions) (w : Modal) : Modal :=
  {| isOpen := isOpen w; caseStudy := caseStudy w; currentPanel := currentPanel w;
     activeImageIndex := activeImageIndex w;
     isVerticalLayout := isVerticalLayout w;
     showKeyboardHints := showKeyboardHints w;
     scrollContainerRef := scrollContainerRef w;
     scrollRequests := push (scrollRequests w) o |}.

(** [totalPanels = caseStudy.panels.length + 1], the intro panel
    included. *)
Definition totalPanels (caseStudy : CaseStudy) : nat :=
  (length (panels caseStudy) + 1)%nat.

(** The number of pages of the current render; without a case study the
    component renders nothing. *)
Definition frameCount (w : Modal) : nat :=
  match caseStudy w with
  | Some caseStudy => totalPanels caseStudy
  | None => 0%nat
  end.

(** The component as first rendered: the [useState] and [useRef] initial
    values. *)
Definition mount (isOpen : bool) (caseStudy : option CaseStudy) : Modal :=
  {| isOpen := isOpen; caseStudy := caseStudy; currentPanel := Js.Num 0;
     activeImageIndex := None; isVerticalLayout := false;
     showKeyboardHints := false; scrollContainerRef := None;
     scrollRequests := [] |}.

(** [checkLayout], run on mount and on every [resize] event, with
    [window.innerWidth] as argument. *)
Definition checkLayout (innerWidth : Z) (w : Modal) : Modal :=
  let w := setIsVerticalLayout (bool_decide (innerWidth < 641)) w in
  setShowKeyboardHints (bool_decide (1024 ≤ innerWidth)) w.

(** The effect "Reset to first panel when modal opens", dependencies
    [[isOpen]]. *)
Definition resetOnOpen (w : Modal) : Modal :=
  if isOpen w then
    let w := setCurrentPanel (Js.Num 0) w in
    match scrollContainerRef w with
    | Some container => setContainer (Some (scrollToOrigin container)) w
    | None => w
    end
  else w.

(** The parent's [openUserCaseStudy]: the prop [isOpen] becomes [true],
    the component re-renders and the effects depending on [isOpen] run.
    When [isOpen] is [true] already nothing changes and no effect runs. *)
Definition openUserCaseStudy (w : Modal) : Modal :=
  if isOpen w then w else resetOnOpen (setIsOpen true w).

(** The parent's [closeUserCaseStudy], passed as [onClose]. *)
Definition onClose (w : Modal) : Modal :=
  resetOnOpen (setIsOpen false w).

(** The body of [navigateToPanel] for the closure created by a render in
    which [isVerticalLayout] was [vertical]; the container is read from the
    ref when the call is made. *)
Definition navigateToPanel_closure (caseStudy : option CaseStudy)
    (vertical : bool) (index : Js.Number) (w : Modal) : Modal :=
  match caseStudy with
  | None => w
  | Some caseStudy =>
      if Js.lt index (Js.Num 0)
         || Js.ge index (Js.Num (Z.of_nat (length (panels caseStudy)) + 1))
      then w
      else
        match scrollContainerRef w with
        | Some container =>
            let panelSize :=
              if vertical then offsetHeight container
              else offsetWidth container in
            let w :=
              if vertical then
                scrollTo (ScrollTop (Js.mul (Js.Num panelSize) index)) w
              else
                scrollTo (ScrollLeft (Js.mul (Js.Num panelSize) index)) w in
            setCurrentPanel index w
        | None => w
        end
  end.

(** [navigateToPanel] of the current render ([useCallback] with
    dependencies [[caseStudy, isVerticalLayout]]). *)
Definition navigateToPanel (index : Js.Number) (w : Modal) : Modal :=
  navigateToPanel_closure (caseStudy w) (isVerticalLayout w) index w.

(** [handleKeyDown].  The effect installing it depends on
    [[isOpen, currentPanel, onClose, caseStudy]] but not on
    [navigateToPanel], so the [navigateToPanel] it calls may come from an
    earlier render with the same [caseStudy] and another layout flag,
    [capturedVertical]. *)
Definition handleKeyDown (capturedVertical : bool) (key : string)
    (w : Modal) : Modal :=
  let navigateToPanel :=
    navigateToPanel_closure (caseStudy w) capturedVertical in
  if bool_decide (key = "Escape") then onClose w
  else if bool_decide (key = "ArrowRight") || bool_decide (key = "ArrowDown") then
    navigateToPanel (Js.add (currentPanel w) (Js.Num 1)) w
  else if bool_decide (key = "ArrowLeft") || bool_decide (key = "ArrowUp") then
    navigateToPanel (Js.sub (currentPanel w) (Js.Num 1)) w
  else w.

(** The [keydown] listener is installed only while
    [isOpen && caseStudy]. *)
Definition keydown (capturedVertical : bool) (key : string) (w : Modal) : Modal :=
  if isOpen w && bool_decide (is_Some (caseStudy w)) then
    handleKeyDown capturedVertical key w
  else w.

(** The function passed to [throttle] in [handleScroll]; its closure is
    rebuilt whenever [isVerticalLayout] changes. *)
Definition handleScroll (w : Modal) : Modal :=
  match scrollContainerRef w with
  | None => w
  | Some container =>
      let scrollPosition :=
        if isVerticalLayout w then scrollTop container else scrollLeft container in
      let containerSize :=
        if isVerticalLayout w then offsetHeight container
        else offsetWidth container in
      let activeIndex := Js.round_div scrollPosition containerSize in
      setCurrentPanel activeIndex w
  end.

(** The template literal [`${index}-${mockupIndex}`]. *)
Definition imageKey (index mockupIndex : nat) : string :=
  pretty index +:+ "-" +:+ pretty mockupIndex.

(** The [onClick] of a mockup:
    [setActiveImageIndex(isActive ? null : imageKey)] with
    [isActive = activeImageIndex === imageKey]. *)
Definition toggleZoom (imageKey : string) (w : Modal) : Modal :=
  let isActive := bool_decide (activeImageIndex w = Some imageKey) in
  setActiveImageIndex (if isActive then None else Some imageKey) w.

(** [handleClick] of the effect "Dismiss zoom on any click anywhere",
    given whether the click landed on an image. *)
Definition handleClick (isClickOnImage : bool) (w : Modal) : Modal :=
  if negb isClickOnImage then setActiveImageIndex None w else w.

End User.

(** ** More JavaScript operators *)

Module JsOps.

(** [a > b] *)
Definition gt (a b : Js.Number) : bool := Js.lt b a.

(** [a === b] on numbers; [NaN] equals nothing. *)
Definition strictEq (a b : Js.Number) : bool :=
  match a, b with
  | Js.NaN, _ | _, Js.NaN => false
  | _, _ => bool_decide (a = b)
  end.

(** Truthiness of a value that is a string or [null]. *)
Definition truthy (s : option string) : bool :=
  match s with
  | Some s => negb (bool_decide (s = ""))
  | None => false
  end.

End JsOps.

(** ** What AdminCaseStudy renders, and the input it takes *)

Module AdminView.
Import Admin.

(** The component returns [null] without a case study, and the modal is
    inside [isOpen && ...]. *)
Definition rendered (w : Modal) : bool :=
  isOpen w && bool_decide (is_Some (caseStudy w)).

(** [!isVerticalLayout && currentFrame > 0] *)
Definition prevArrowShown (w : Modal) : bool :=
  rendered w && (negb (isVerticalLayout w)
                 && JsOps.gt (currentFrame w) (Js.Num 0)).

(** [!isVerticalLayout && currentFrame < frames.length - 1] *)
Definition nextArrowShown (w : Modal) : bool :=
  rendered w
  && (negb (isVerticalLayout w)
      && Js.lt (currentFrame w)
               (Js.Num (Z.of_nat (length (frames (caseStudy w))) - 1))).

(** The handlers of the modal's DOM.  The DOM is drawn by a render [r] of
    the component and its handlers are closures of that render: they read
    the state of [r], and their setters act on the current state [w].
    While the modal is open [r] is the current state.  While the closed
    modal fades out (the exit of [AnimatePresence], 0.3 s) its DOM is still
    in the page and still takes clicks; it is the DOM of the last render
    that had [isOpen]. *)

(** The previous arrow, drawn when [!isVerticalLayout && currentFrame > 0]:
    [onClick={() => navigateToFrame(currentFrame - 1)}]. *)
Definition clickPrevOn (r w : Modal) : Modal :=
  if negb (isVerticalLayout r) && JsOps.gt (currentFrame r) (Js.Num 0) then
    navigateToFrame_closure (length (frames (caseStudy r))) (isVerticalLayout r)
      (Js.sub (currentFrame r) (Js.Num 1)) w
  else w.

(** The next arrow, drawn when
    [!isVerticalLayout && currentFrame < frames.length - 1]:
    [onClick={() => navigateToFrame(currentFrame + 1)}]. *)
Definition clickNextOn (r w : Modal) : Modal :=
  if negb (isVerticalLayout r)
     && Js.lt (currentFrame r)
              (Js.Num (Z.of_nat (length (frames (caseStudy r))) - 1)) then
    navigateToFrame_closure (length (frames (caseStudy r))) (isVerticalLayout r)
      (Js.add (currentFrame r) (Js.Num 1)) w
  else w.

(** Dot [index], one per frame: [onClick={() => navigateToFrame(index)}]. *)
Definition clickDotOn (r : Modal) (index : nat) (w : Modal) : Modal :=
  if bool_decide (index < length (frames (caseStudy r)))%nat then
    navigateToFrame_closure (length (frames (caseStudy r))) (isVerticalLayout r)
      (Js.Num (Z.of_nat index)) w
  else w.

(** The image of frame [frameIndex], which only content frames have:
    [onClick={() => setZoomedFrame(zoomedFrame === frameIndex ? null : frameIndex)}]. *)
Definition clickImageOn (r : Modal) (frameIndex : nat) (w : Modal) : Modal :=
  match frames (caseStudy r) !! frameIndex with
  | Some (Content _) =>
      setZoomedFrame
        (if bool_decide (zoomedFrame r = Some frameIndex) then None
         else Some frameIndex) w
  | _ => w
  end.

(** The same clicks on a DOM that shows the current state. *)
Definition clickPrev (w : Modal) : Modal := clickPrevOn w w.
Definition clickNext (w : Modal) : Modal := clickNextOn w w.
Definition clickDot (index : nat) (w : Modal) : Modal := clickDotOn w index w.
Definition clickImage (frameIndex : nat) (w : Modal) : Modal :=
  clickImageOn w frameIndex w.

(** The navigation dots, [frames.map((_, index) => ...)]: for each dot,
    whether it is drawn as the current one ([currentFrame === index]). *)
Definition dots (w : Modal) : list bool :=
  imap (λ index _, JsOps.strictEq (currentFrame w) (Js.Num (Z.of_nat index)))
       (frames (caseStudy w)).

(** The backdrop and the close button, [onClick={onClose}]. *)
Definition clickClose (w : Modal) : Modal :=
  if rendered w then onClose w else w.

(** The panel title and description a frame shows
    ([frame.isFirstInPanel && ...]), and the progress label
    "imageNumber / totalImages" it shows ([frame.totalImages > 1 && ...]),
    if any. *)
Definition panelHeaderShown (f : Frame) : option (string * string) :=
  match f with
  | Intro _ _ => None
  | Content c =>
      if isFirstInPanel c then Some (panelTitle c, frameDescription c)
      else None
  end.

Definition progressShown (f : Frame) : option (nat * nat) :=
  match f with
  | Intro _ _ => None
  | Content c =>
      if bool_decide (1 < totalImages c)%nat
      then Some (imageNumber c, totalImages c)
      else None
  end.

(** The component together with the DOM of its modal: [dom] is [None]
    while the modal is not in the page, and otherwise the render whose DOM
    is in the page. *)
Record Session : Type := {
  modal : Modal;
  dom : option Modal
}.

(** After a handler has run, React renders the component again.  With a
    case study and [isOpen], the DOM shows the new state; with a case study
    and not [isOpen], the DOM that was there stays as it was, fading out;
    without a case study the component returns [null]. *)
Definition commit (w : Modal) (d : option Modal) : Session :=
  {| modal := w;
     dom := if bool_decide (is_Some (caseStudy w)) then
              if isOpen w then Some w else d
            else None |}.

(** Input other than scrolling: a key, a click on the modal's DOM, a
    resize of the window, the parent opening the modal (with the container
    that is mounted if the DOM is not in the page), the exit animation of
    the closed modal coming to its end, and the mounted container being
    measured anew. *)
Inductive Event : Type :=
  | Key (capturedVertical : bool) (key : string)
  | ClickPrev
  | ClickNext
  | ClickDot (index : nat)
  | ClickImage (frameIndex : nat)
  | ClickClose
  | Resize (innerWidth : Z)
  | Open (c : Container)
  | ExitComplete
  | Remeasure (c : Container).

(** A click needs the DOM to be in the page. *)
Definition onDom (handler : Modal → Modal → Modal) (s : Session) : Session :=
  match dom s with
  | Some r => commit (handler r (modal s)) (dom s)
  | None => s
  end.

Definition step (e : Event) (s : Session) : Session :=
  match e with
  | Key v key => commit (keydown v key (modal s)) (dom s)
  | ClickPrev => onDom clickPrevOn s
  | ClickNext => onDom clickNextOn s
  | ClickDot index => onDom (λ r, clickDotOn r index) s
  | ClickImage frameIndex => onDom (λ r, clickImageOn r frameIndex) s
  | ClickClose => onDom (λ _, onClose) s
  | Resize innerWidth => commit (checkLayout innerWidth (modal s)) (dom s)
  | Open c =>
      let w :=
        match dom s with
        | Some _ => modal s
        | None =>
            if bool_decide (is_Some (caseStudy (modal s)))
            then setContainer (Some c) (modal s)
            else modal s
        end in
      commit (openAdminCaseStudy w) (dom s)
  | ExitComplete =>
      if isOpen (modal s) then s
      else {| modal := setContainer None (modal s); dom := None |}
  | Remeasure c => onDom (λ _, setContainer (Some c)) s
  end.

Definition run (events : list Event) (s : Session) : Session :=
  foldl (λ s e, step e s) s events.

(** The session of a modal that has just been opened or is closed with
    no DOM left. *)
Definition session (w : Modal) : Session := commit w None.

End AdminView.

(** ** What UserCaseStudy renders, and the input it takes *)

Module UserView.
Import User.

Definition rendered (w : Modal) : bool :=
  isOpen w && bool_decide (is_Some (caseStudy w)).

(** [!isVerticalLayout && currentPanel > 0] *)
Definition prevArrowShown (w : Modal) : bool :=
  rendered w && (negb (isVerticalLayout w)
                 && JsOps.gt (currentPanel w) (Js.Num 0)).

(** [!isVerticalLayout && currentPanel < totalPanels - 1] *)
Definition nextArrowShown (w : Modal) : bool :=
  rendered w
  && (negb (isVerticalLayout w)
      && Js.lt (currentPanel w) (Js.Num (Z.of_nat (frameCount w) - 1))).

(** The navigation dots,
    [Array.from({ length: totalPanels }).map((_, index) => ...)]. *)
Definition dots (w : Modal) : list bool :=
  imap (λ index _, JsOps.strictEq (currentPanel w) (Js.Num (Z.of_nat index)))
       (replicate (frameCount w) ()).

(** The effect "Dismiss zoom on any click anywhere" returns early on
    [!isOpen || !activeImageIndex]; otherwise it attaches [handleClick]
    to the document, in the capture phase, 10 ms later.  The listener is
    taken to be attached whenever the effect asked for it. *)
Definition zoomListenerAttached (w : Modal) : bool :=
  isOpen w && JsOps.truthy (activeImageIndex w).

Definition documentClick (isClickOnImage : bool) (w : Modal) : Modal :=
  if zoomListenerAttached w then handleClick isClickOnImage w else w.

(** A click on the backdrop or on the close button: the document's
    capture listener runs first, then [onClick={onClose}]. *)
Definition clickClose (w : Modal) : Modal :=
  if rendered w then onClose (documentClick false w) else w.

(** [caseStudy.panels[index].mockups[mockupIndex]], if there is one. *)
Definition mockupAt (caseStudy : option CaseStudy) (index mockupIndex : nat)
    : option Mockup :=
  match caseStudy with
  | Some caseStudy =>
      match panels caseStudy !! index with
      | Some panel => mockups panel !! mockupIndex
      | None => None
      end
  | None => None
  end.

(** The handlers of the modal's DOM.  The DOM is drawn by a render [r] of
    the component and its handlers are closures of that render: they read
    the state of [r], and their setters act on the current state [w].
    While the modal is open [r] is the current state.  While the closed
    modal fades out (the exit of [AnimatePresence], 0.3 s) its DOM is still
    in the page and still takes clicks; it is the DOM of the last render
    that had [isOpen].  Before the handler of the element clicked, the
    document's capture listener runs, if it is attached. *)

(** The previous arrow, drawn when [!isVerticalLayout && currentPanel > 0]:
    [onClick={() => navigateToPanel(currentPanel - 1)}]. *)
Definition clickPrevOn (r w : Modal) : Modal :=
  if negb (isVerticalLayout r) && JsOps.gt (currentPanel r) (Js.Num 0) then
    navigateToPanel_closure (caseStudy r) (isVerticalLayout r)
      (Js.sub (currentPanel r) (Js.Num 1)) (documentClick false w)
  else w.

(** The next arrow, drawn when
    [!isVerticalLayout && currentPanel < totalPanels - 1]:
    [onClick={() => navigateToPanel(currentPanel + 1)}]. *)
Definition clickNextOn (r w : Modal) : Modal :=
  if negb (isVerticalLayout r)
     && Js.lt (currentPanel r) (Js.Num (Z.of_nat (frameCount r) - 1)) then
    navigateToPanel_closure (caseStudy r) (isVerticalLayout r)
      (Js.add (currentPanel r) (Js.Num 1)) (documentClick false w)
  else w.

(** Dot [index], one per page: [onClick={() => navigateToPanel(index)}]. *)
Definition clickDotOn (r : Modal) (index : nat) (w : Modal) : Modal :=
  if bool_decide (index < frameCount r)%nat then
    navigateToPanel_closure (caseStudy r) (isVerticalLayout r)
      (Js.Num (Z.of_nat index)) (documentClick false w)
  else w.

(** Mockup [mockupIndex] of panel [index], the click landing on the
    image, which the capture listener leaves alone:
    [onClick={() => setActiveImageIndex(isActive ? null : imageKey)}] with
    [isActive = activeImageIndex === imageKey]. *)
Definition clickMockupOn (r : Modal) (index mockupIndex : nat) (w : Modal)
    : Modal :=
  match mockupAt (caseStudy r) index mockupIndex with
  | Some _ =>
      let isActive :=
        bool_decide (activeImageIndex r = Some (imageKey index mockupIndex)) in
      setActiveImageIndex
        (if isActive then None else Some (imageKey index mockupIndex))
        (documentClick true w)
  | None => w
  end.

(** The same clicks on a DOM that shows the current state. *)
Definition clickPrev (w : Modal) : Modal := clickPrevOn w w.
Definition clickNext (w : Modal) : Modal := clickNextOn w w.
Definition clickDot (index : nat) (w : Modal) : Modal := clickDotOn w index w.
Definition clickMockup (index mockupIndex : nat) (w : Modal) : Modal :=
  clickMockupOn w index mockupIndex w.

(** The component together with the DOM of its modal: [dom] is [None]
    while the modal is not in the page, and otherwise the render whose DOM
    is in the page. *)
Record Session : Type := {
  modal : Modal;
  dom : option Modal
}.

(** After a handler has run, React renders the component again.  With a
    case study and [isOpen], the DOM shows the new state; with a case study
    and not [isOpen], the DOM that was there stays as it was, fading out;
    without a case study the component returns [null]. *)
Definition commit (w : Modal) (d : option Modal) : Session :=
  {| modal := w;
     dom := if bool_decide (is_Some (caseStudy w)) then
              if isOpen w then Some w else d
            else None |}.

(** Input other than scrolling: a key, a click on the modal's DOM or
    somewhere that is not an image, a resize of the window, the parent
    opening the modal (with the container that is mounted if the DOM is not
    in the page), the exit animation of the closed modal coming to its end,
    and the mounted container being measured anew. *)
Inductive Event : Type :=
  | Key (capturedVertical : bool) (key : string)
  | ClickPrev
  | ClickNext
  | ClickDot (index : nat)
  | ClickMockup (index mockupIndex : nat)
  | ClickElsewhere
  | ClickClose
  | Resize (innerWidth : Z)
  | Open (c : Container)
  | ExitComplete
  | Remeasure (c : Container).

(** A click on the modal needs its DOM to be in the page. *)
Definition onDom (handler : Modal → Modal → Modal) (s : Session) : Session :=
  match dom s with
  | Some r => commit (handler r (modal s)) (dom s)
  | None => s
  end.

Definition step (e : Event) (s : Session) : Session :=
  match e with
  | Key v key => commit (keydown v key (modal s)) (dom s)
  | ClickPrev => onDom clickPrevOn s
  | ClickNext => onDom clickNextOn s
  | ClickDot index => onDom (λ r, clickDotOn r index) s
  | ClickMockup index mockupIndex =>
      onDom (λ r, clickMockupOn r index mockupIndex) s
  | ClickElsewhere => commit (documentClick false (modal s)) (dom s)
  | ClickClose => onDom (λ _ w, onClose (documentClick false w)) s
  | Resize innerWidth => commit (checkLayout innerWidth (modal s)) (dom s)
  | Open c =>
      let w :=
        match dom s with
        | Some _ => modal s
        | None =>
            if bool_decide (is_Some (caseStudy (modal s)))
            then setContainer (Some c) (modal s)
            else modal s
        end in
      commit (openUserCaseStudy w) (dom s)
  | ExitComplete =>
      if isOpen (modal s) then s
      else {| modal := setContainer None (modal s); dom := None |}
  | Remeasure c => onDom (λ _, setContainer (Some c)) s
  end.

Definition run (events : list Event) (s : Session) : Session :=
  foldl (λ s e, step e s) s events.

(** The session of a modal that has just been opened or is closed with
    no DOM left. *)
Definition session (w : Modal) : Session := commit w None.

End UserView.

(** ** JavaScript strings *)

(** Strings are sequences of ASCII characters, which is all the keys of
    the zoomed image contain. *)
Module JsString.

(** [s.split(sep)] for a separator of one character. *)
Fixpoint split (sep : ascii) (s : string) : list string :=
  match s with
  | EmptyString => [EmptyString]
  | String c s' =>
      if bool_decide (c = sep) then EmptyString :: split sep s'
      else
        match split sep s' with
        | x :: xs => String c x :: xs
        | [] => [String c EmptyString]
        end
  end.

(** The ASCII characters of [StrWhiteSpaceChar]: TAB, LF, VT, FF, CR and
    the space. *)
Definition isWhiteSpace (c : ascii) : bool :=
  let n := N_of_ascii c in
  bool_decide (9 ≤ n ≤ 13)%N || bool_decide (n = 32)%N.

Fixpoint trimStart (s : string) : string :=
  match s with
  | EmptyString => EmptyString
  | String c s' => if isWhiteSpace c then trimStart s' else s
  end.

(** The value of a character as a digit: [0-9], then [a-z] or [A-Z] for
    10 to 35. *)
Definition digitValue (c : ascii) : option N :=
  let n := N_of_ascii c in
  if bool_decide (48 ≤ n ≤ 57)%N then Some (n - 48)%N
  else if bool_decide (97 ≤ n ≤ 122)%N then Some (n - 87)%N
  else if bool_decide (65 ≤ n ≤ 90)%N then Some (n - 55)%N
  else None.

Definition isDigit (radix : N) (c : ascii) : bool :=
  match digitValue c with
  | Some d => bool_decide (d < radix)%N
  | None => false
  end.

(** The value of the longest prefix of digits of [s], after [acc]. *)
Fixpoint parseDigits (radix acc : N) (s : string) : N :=
  match s with
  | EmptyString => acc
  | String c s' =>
      match digitValue c with
      | Some d =>
          if bool_decide (d < radix)%N
          then parseDigits radix (acc * radix + d)%N s'
          else acc
      | None => acc
      end
  end.

Definition startsWithDigit (radix : N) (s : string) : bool :=
  match s with
  | EmptyString => false
  | String c _ => isDigit radix c
  end.

(** [parseInt(s)] without a radix: leading white space is dropped, then
    a sign, then [0x] or [0X] selects radix 16; the longest prefix of
    digits is the value, and there being none gives [NaN].  The value is
    exact, and minus zero is zero. *)
Definition parseInt (s : string) : Js.Number :=
  let s := trimStart s in
  let '(negative, s) :=
    match s with
    | String "-" s' => (true, s')
    | String "+" s' => (false, s')
    | _ => (false, s)
    end in
  let '(radix, s) :=
    match s with
    | String "0" (String "x" s') | String "0" (String "X" s') => (16%N, s')
    | _ => (10%N, s)
    end in
  if startsWithDigit radix s then
    let n := Z.of_N (parseDigits radix 0 s) in
    Js.Num (if negative : bool then - n else n)
  else Js.NaN.

(** Every character of [s] satisfies [p]. *)
Fixpoint all (p : ascii → bool) (s : string) : bool :=
  match s with
  | EmptyString => true
  | String c s' => p c && all p s'
  end.

End JsString.

(** ** How UserCaseStudy draws a mockup *)

Module UserMockup.
Import User.

(** [isActive = activeImageIndex === imageKey] *)
Definition isActive (activeImageIndex : option string)
    (index mockupIndex : nat) : bool :=
  bool_decide (activeImageIndex = Some (imageKey index mockupIndex)).

(** "Calculate horizontal shift for neighboring images":
    [activeIndex = parseInt(activeImageIndex.split('-')[1])], where a
    missing element is [undefined] and reads as the string "undefined". *)
Definition xShift (activeImageIndex : option string) (mockupIndex : nat) : Z :=
  if JsOps.truthy activeImageIndex then
    let activeIndex :=
      JsString.parseInt
        (default "undefined"
           (JsString.split "-" (default "" activeImageIndex) !! 1%nat)) in
    if Js.lt (Js.Num (Z.of_nat mockupIndex)) activeIndex then -50
    else if JsOps.gt (Js.Num (Z.of_nat mockupIndex)) activeIndex then 50
    else 0
  else 0.

(** [x: isActive ? 0 : xShift] *)
Definition animateX (activeImageIndex : option string)
    (index mockupIndex : nat) : Z :=
  if isActive activeImageIndex index mockupIndex then 0
  else xShift activeImageIndex mockupIndex.

End UserMockup.

(** ** Which image can be zoomed *)

Module Invariant.

(** The zoomed frame of AdminCaseStudy, if any, is a content frame of the
    frame list. *)
Definition adminZoomOnImage (w : Admin.Modal) : Prop :=
  ∀ i, Admin.zoomedFrame w = Some i →
       ∃ c, Admin.frames (Admin.caseStudy w) !! i = Some (Admin.Content c).

(** The zoomed image of UserCaseStudy, if any, is the key of a mockup of
    the case study. *)
Definition userZoomOnImage (w : User.Modal) : Prop :=
  ∀ k, User.activeImageIndex w = Some k →
       ∃ index mockupIndex mk,
         k = User.imageKey index mockupIndex
         ∧ UserView.mockupAt (User.caseStudy w) index mockupIndex = Some mk.

(** The index of a state is in range. *)
Definition adminInRange (w : Admin.Modal) : Prop :=
  inFrameRange (Admin.currentFrame w) (Admin.frameCount w).

Definition userInRange (w : User.Modal) : Prop :=
  inFrameRange (User.currentPanel w) (User.frameCount w).

(** The DOM in the page, if any, was drawn for the case study of the
    state, by a render satisfying [P]. *)
Definition adminDom (P : Admin.Modal → Prop) (s : AdminView.Session) : Prop :=
  ∀ r, AdminView.dom s = Some r →
       Admin.caseStudy r = Admin.caseStudy (AdminView.modal s) ∧ P r.

Definition userDom (P : User.Modal → Prop) (s : UserView.Session) : Prop :=
  ∀ r, UserView.dom s = Some r →
       User.caseStudy r = User.caseStudy (UserView.modal s) ∧ P r.

End Invariant.

(** ** The scroll lock of the page *)

(** Both modals hold the same effect, with dependencies [[isOpen]]:
    [document.body.style.overflow] becomes ['hidden'] when [isOpen] and
    ['auto'] otherwise, and the cleanup sets ['auto'].  The two components
    write the same property of the one document. *)
Module ScrollLock.

Inductive Which : Type := AdminModal | UserModal.

(** The page: the [overflow] style of the body and, for each modal,
    [None] while it is unmounted and otherwise the [isOpen] its effect last
    ran with. *)
Record Page : Type := {
  overflow : string;
  admin : option bool;
  user : option bool
}.

Definition mounted (m : Which) (p : Page) : option bool :=
  match m with AdminModal => admin p | UserModal => user p end.

Definition setMounted (m : Which) (b : option bool) (p : Page) : Page :=
  match m with
  | AdminModal => {| overflow := overflow p; admin := b; user := user p |}
  | UserModal => {| overflow := overflow p; admin := admin p; user := b |}
  end.

Definition setOverflow (v : string) (p : Page) : Page :=
  {| overflow := v; admin := admin p; user := user p |}.

(** The effect body and its cleanup. *)
Definition effect (isOpen : bool) (p : Page) : Page :=
  if isOpen then setOverflow "hidden" p else setOverflow "auto" p.

Definition cleanup (p : Page) : Page := setOverflow "auto" p.

(** A modal is rendered with a value of [isOpen], or unmounted.  React
    runs the effect on mount, runs the cleanup and then the effect when
    [isOpen] has changed, and runs the cleanup on unmount. *)
Inductive Event : Type :=
  | Render (m : Which) (isOpen : bool)
  | Unmount (m : Which).

Definition step (e : Event) (p : Page) : Page :=
  match e with
  | Render m isOpen =>
      match mounted m p with
      | None => setMounted m (Some isOpen) (effect isOpen p)
      | Some previous =>
          if bool_decide (previous = isOpen) then p
          else setMounted m (Some isOpen) (effect isOpen (cleanup p))
      end
  | Unmount m =>
      match mounted m p with
      | None => p
      | Some _ => setMounted m None (cleanup p)
      end
  end.

Definition run (events : list Event) (p : Page) : Page :=
  foldl (λ p e, step e p) p events.

Definition anyOpen (p : Page) : Prop :=
  admin p = Some true ∨ user p = Some true.

(** The event concerns modal [m]. *)
Definition about (m : Which) (e : Event) : Prop :=
  match e with Render m' _ | Unmount m' => m' = m end.

(** The body style agrees with modal [m]: locked exactly when [m] is
    mounted and open. *)
Definition agrees (m : Which) (p : Page) : Prop :=
  overflow p = if bool_decide (mounted m p = Some true) then "hidden" else "auto".

End ScrollLock.

(** ** Projects section *)

Module Projects.

(** The values the project objects hold; an object is a finite map from
    property names to values. *)
Inductive JsValue : Type :=
  | VString (s : string)
  | VList (l : list string)
  | VNull.


Record App : Type := {
  appName : string;
  appDescription : string;
  emoji : string;
  accentColor : string;
  modalContent : gmap string JsValue
}.

Record Project : Type := {
  id : Z;
  projectTitle : string;
  projectDescription : string;
  tags : list string;
  userApp : App;
  adminApp : App;
  color : string
}.

(** The state cells of [Projects], and the number of timeouts
    [closeProjectModal] has set that have not fired yet; each of them runs
    [setCurrentProject(null)]. *)
Record State : Type := {
  projectModalOpen : bool;
  currentProject : option (gmap string JsValue);
  userCaseStudyOpen : bool;
  adminCaseStudyOpen : bool;
  pendingTimeouts : nat
}.

Definition initial : State :=
  {| projectModalOpen := false; currentProject := None;
     userCaseStudyOpen := false; adminCaseStudyOpen := false;
     pendingTimeouts := 0 |}.

Definition openProjectModal (projectData : gmap string JsValue) (s : State) : State :=
  {| projectModalOpen := true; currentProject := Some projectData;
     userCaseStudyOpen := userCaseStudyOpen s;
     adminCaseStudyOpen := adminCaseStudyOpen s;
     pendingTimeouts := pendingTimeouts s |}.

(** [setProjectModalOpen(false); setTimeout(() => setCurrentProject(null), 200)] *)
Definition closeProjectModal (s : State) : State :=
  {| projectModalOpen := false; currentProject := currentProject s;
     userCaseStudyOpen := userCaseStudyOpen s;
     adminCaseStudyOpen := adminCaseStudyOpen s;
     pendingTimeouts := S (pendingTimeouts s) |}.

(** The oldest pending timeout fires. *)
Definition timeout (s : State) : State :=
  match pendingTimeouts s with
  | O => s
  | S n =>
      {| projectModalOpen := projectModalOpen s; currentProject := None;
         userCaseStudyOpen := userCaseStudyOpen s;
         adminCaseStudyOpen := adminCaseStudyOpen s;
         pendingTimeouts := n |}
  end.

Definition setUserCaseStudyOpen (b : bool) (s : State) : State :=
  {| projectModalOpen := projectModalOpen s;
     currentProject := currentProject s;
     userCaseStudyOpen := b;
     adminCaseStudyOpen := adminCaseStudyOpen s;
     pendingTimeouts := pendingTimeouts s |}.

Definition setAdminCaseStudyOpen (b : bool) (s : State) : State :=
  {| projectModalOpen := projectModalOpen s;
     currentProject := currentProject s;
     userCaseStudyOpen := userCaseStudyOpen s;
     adminCaseStudyOpen := b;
     pendingTimeouts := pendingTimeouts s |}.

Definition openUserCaseStudy : State → State := setUserCaseStudyOpen true.
Definition closeUserCaseStudy : State → State := setUserCaseStudyOpen false.
Definition openAdminCaseStudy : State → State := setAdminCaseStudyOpen true.
Definition closeAdminCaseStudy : State → State := setAdminCaseStudyOpen false.

(** [{ ...modalContent, type: kind, stack: project.tags }] *)
Definition projectData (app : App) (kind : string) (project : Project) : gmap string JsValue :=
  <["stack" := VList (tags project)]>
    (<["type" := VString kind]> (modalContent app)).

(** The [onClick] of the "User App" card of a project. *)
Definition clickUserCard (project : Project) (s : State) : State :=
  if bool_decide (id project = 2) then openUserCaseStudy s
  else openProjectModal (projectData (userApp project) "User App" project) s.

(** The [onClick] of the "Admin App" card of a project. *)
Definition clickAdminCard (project : Project) (s : State) : State :=
  if bool_decide (id project = 2) then openAdminCaseStudy s
  else openProjectModal (projectData (adminApp project) "Admin App" project) s.

End Projects.

(** ** About section *)

Module AboutMe.

Record Section_ : Type := {
  id : Z;
  label : string;
  content : string;
  preview : string
}.

(** [toggleSection]:
    [setOpenSection(openSection === id ? null : id)]. *)
Definition toggleSection (id : Z) (openSection : option Z) : option Z :=
  if bool_decide (openSection = Some id) then None else Some id.

(** The sections whose content is expanded
    ([openSection === section.id && ...]). *)
Definition expanded (bioSections : list Section_) (openSection : option Z)
    : list Section_ :=
  filter (λ section, openSection = Some (id section)) bioSections.

(** The headers clicked one after the other, by position in
    [bioSections]; a position without a section has no header. *)
Definition click (bioSections : list Section_) (openSection : option Z)
    (position : nat) : option Z :=
  match bioSections !! position with
  | Some section => toggleSection (id section) openSection
  | None => openSection
  end.

Definition run (bioSections : list Section_) (positions : list nat)
    (openSection : option Z) : option Z :=
  foldl (click bioSections) openSection positions.

End AboutMe.

(** ** Contact form *)

Module Contact.

(** [formData], an object of string fields, and what [handleSubmit] has
    sent to the console and shown in alerts (oldest first). *)
Record State : Type := {
  formData : gmap string string;
  isFocused : gmap string bool;
  logged : list (gmap string string);
  alerts : list string
}.

Definition initial : State :=
  {| formData := {[ "name" := ""; "email" := ""; "message" := "" ]};
     isFocused := {[ "name" := false; "email" := false; "message" := false ]};
     logged := []; alerts := [] |}.

(** [setFormData({ ...formData, [e.target.name]: e.target.value })] *)
Definition handleChange (name value : string) (s : State) : State :=
  {| formData := <[name := value]> (formData s); isFocused := isFocused s;
     logged := logged s; alerts := alerts s |}.

(** [e.preventDefault(); console.log('Form submitted:', formData);
    alert(...)] *)
Definition handleSubmit (s : State) : State :=
  {| formData := formData s; isFocused := isFocused s;
     logged := push (logged s) (formData s);
     alerts :=
       push (alerts s) "Form submission will be connected to EmailJS later!" |}.

(** [setIsFocused({ ...isFocused, [field]: focused })], the [onFocus] and
    [onBlur] of the three inputs. *)
Definition setFocus (field : string) (focused : bool) (s : State) : State :=
  {| formData := formData s; isFocused := <[field := focused]> (isFocused s);
     logged := logged s; alerts := alerts s |}.

Inductive Event : Type :=
  | Change (name value : string)
  | Focus (field : string)
  | Blur (field : string)
  | Submit.

Definition step (e : Event) (s : State) : State :=
  match e with
  | Change name value => handleChange name value s
  | Focus field => setFocus field true s
  | Blur field => setFocus field false s
  | Submit => handleSubmit s
  end.

Definition run (events : list Event) (s : State) : State :=
  foldl (λ s e, step e s) s events.

(** The value last typed into field [name], if any. *)
Fixpoint lastTyped (name : string) (events : list Event) : option string :=
  match events with
  | [] => None
  | e :: events =>
      match lastTyped name events with
      | Some v => Some v
      | None =>
          match e with
          | Change name' value =>
              if bool_decide (name' = name) then Some value else None
          | _ => None
          end
      end
  end.

(** The inputs of the form: their [name] attributes. *)
Definition inputs : list string := ["name"; "email"; "message"].

(** The event comes from one of the three inputs or from the form. *)
Definition fromForm (e : Event) : Prop :=
  match e with
  | Change name _ => name ∈ inputs
  | Focus field | Blur field => field ∈ inputs
  | Submit => True
  end.

End Contact.

(** ** Sample content and sample states *)

Module Sample.

Definition shot (name : string) : Mockup :=
  {| src := "/medicalChatBot/" +:+ name +:+ ".png"; alt := name;
     loaded := false |}.

(** Two panels, of one and of three mockups. *)
Definition twoPanels : CaseStudy :=
  {| cs_title := "Admin application";
     cs_description := "Admin platform";
     panels :=
       [ {| label := "Feature 01"; title := "Admin Dashboard";
            description := "Command center";
            mockups := [shot "dashboard"] |};
         {| label := "Feature 02"; title := "Courses";
            description := "Course management";
            mockups := [shot "list"; shot "edit"; shot "stats"] |} ] |}.

Definition desktop : Container :=
  {| scrollLeft := 0; scrollTop := 0; offsetWidth := 1280; offsetHeight := 720 |}.

(** The same element after the window was narrowed. *)
Definition narrowed : Container :=
  {| scrollLeft := 0; scrollTop := 0; offsetWidth := 900; offsetHeight := 720 |}.

(** A container 600 px high, in vertical mode, whose frames are taller
    than the container (their height is only bounded below, by
    [min-h-full]), scrolled down by 3000 px. *)
Definition scrolledDown : Container :=
  {| scrollLeft := 0; scrollTop := 3000; offsetWidth := 800; offsetHeight := 600 |}.

(** A container without extent. *)
Definition collapsed : Container :=
  {| scrollLeft := 0; scrollTop := 0; offsetWidth := 0; offsetHeight := 0 |}.

(** AdminCaseStudy open on [twoPanels], at frame 2, on a desktop. *)
Definition adminOpen : Admin.Modal :=
  Admin.setCurrentFrame (Js.Num 2)
    (Admin.checkLayout 1280
       (Admin.openAdminCaseStudy
          (Admin.setContainer (Some desktop)
             (Admin.mount false (Some twoPanels))))).

(** The same with frame 2 zoomed. *)
Definition adminZoomed : Admin.Modal := Admin.toggleZoom 2 adminOpen.

(** The same at the last frame. *)
Definition adminLast : Admin.Modal := Admin.setCurrentFrame (Js.Num 4) adminOpen.

(** AdminCaseStudy open on [twoPanels] before its container is mounted. *)
Definition adminUnmounted : Admin.Modal :=
  Admin.checkLayout 1280
    (Admin.openAdminCaseStudy (Admin.mount false (Some twoPanels))).

(** AdminCaseStudy open on [twoPanels] on a narrow window, scrolled
    down. *)
Definition adminScrolled : Admin.Modal :=
  Admin.setContainer (Some scrolledDown)
    (Admin.checkLayout 800
       (Admin.openAdminCaseStudy (Admin.mount false (Some twoPanels)))).

(** AdminCaseStudy open on [twoPanels] with a container without extent. *)
Definition adminCollapsed : Admin.Modal :=
  Admin.setContainer (Some collapsed) adminOpen.

(** UserCaseStudy open on [twoPanels], at panel 1, on a desktop. *)
Definition userOpen : User.Modal :=
  User.setCurrentPanel (Js.Num 1)
    (User.checkLayout 1280
       (User.openUserCaseStudy
          (User.setContainer (Some desktop)
             (User.mount false (Some twoPanels))))).

(** The same with the first image of panel 1 zoomed. *)
Definition userZoomed : User.Modal :=
  User.toggleZoom (User.imageKey 1 0) userOpen.

(** The same at the last panel. *)
Definition userLast : User.Modal := User.setCurrentPanel (Js.Num 2) userOpen.

(** UserCaseStudy open on [twoPanels] before its container is mounted. *)
Definition userUnmounted : User.Modal :=
  User.checkLayout 1280
    (User.openUserCaseStudy (User.mount false (Some twoPanels))).

(** UserCaseStudy open on [twoPanels] on a phone, scrolled down. *)
Definition userScrolled : User.Modal :=
  User.setContainer (Some scrolledDown)
    (User.checkLayout 400
       (User.openUserCaseStudy (User.mount false (Some twoPanels)))).

(** A session of UserCaseStudy: open, zoom an image, press Escape, and
    open again. *)
Definition userReopened : User.Modal :=
  User.openUserCaseStudy (User.keydown false "Escape" userZoomed).

(** AdminCaseStudy closed by a click on the backdrop while frame 2 was
    zoomed, and opened again. *)
Definition adminReopenedZoomed : Admin.Modal :=
  Admin.openAdminCaseStudy (Admin.onClose adminZoomed).

End Sample.

(** ** Sample input *)

Module Sample2.

(** The desktop container once it has scrolled to frame 3. *)
Definition atFrame3 : Container :=
  {| scrollLeft := 3840; scrollTop := 0; offsetWidth := 1280;
     offsetHeight := 720 |}.

(** A session of AdminCaseStudy that starts at [Sample.adminOpen]; the
    last two clicks land on the closed modal while it fades out. *)
Definition adminEvents : list AdminView.Event :=
  [ AdminView.Key false "ArrowRight"; AdminView.ClickNext;
    AdminView.ClickDot 4; AdminView.Key false "ArrowDown";
    AdminView.ClickImage 0; AdminView.ClickImage 2;
    AdminView.Resize 800; AdminView.ClickPrev;
    AdminView.Key true "ArrowUp"; AdminView.Key false "Escape";
    AdminView.ClickClose; AdminView.ClickDot 1; AdminView.ClickImage 2 ].

(** A session of UserCaseStudy that starts at [Sample.userOpen]; Escape
    closes the modal and the last two clicks land on it while it fades
    out. *)
Definition userEvents : list UserView.Event :=
  [ UserView.Key false "ArrowRight"; UserView.ClickNext;
    UserView.ClickDot 2; UserView.Key false "ArrowDown";
    UserView.ClickMockup 1 2; UserView.ClickDot 1;
    UserView.ClickMockup 5 0; UserView.Resize 400; UserView.ClickPrev;
    UserView.ClickElsewhere; UserView.ClickMockup 0 0;
    UserView.Key false "Escape"; UserView.ClickDot 2;
    UserView.ClickMockup 1 0 ].

(** AdminCaseStudy closed while scrolled down, its DOM still in the
    page. *)
Definition adminClosing : Admin.Modal := Admin.onClose Sample.adminScrolled.

(** AdminCaseStudy opened on a window 900 px wide, hence in the vertical
    layout, and the same after the window was widened to 1280 px. *)
Definition adminOnTablet : Admin.Modal :=
  Admin.openAdminCaseStudy
    (Admin.setContainer (Some Sample.narrowed)
       (Admin.checkLayout 900 (Admin.mount false (Some Sample.twoPanels)))).

Definition adminWidened : Admin.Modal :=
  Admin.checkLayout 1280
    (Admin.setContainer (Some Sample.desktop) adminOnTablet).

(** UserCaseStudy opened on a window 600 px wide, hence in the vertical
    layout, and the same after the window was widened to 1280 px. *)
Definition userOnPhone : User.Modal :=
  User.openUserCaseStudy
    (User.setContainer
       (Some {| scrollLeft := 0; scrollTop := 0; offsetWidth := 600;
                offsetHeight := 720 |})
       (User.checkLayout 600 (User.mount false (Some Sample.twoPanels)))).

Definition userWidened : User.Modal :=
  User.checkLayout 1280 (User.setContainer (Some Sample.desktop) userOnPhone).

(** AdminCaseStudy whose index the scroll handler has made [NaN]. *)
Definition adminNaN : Admin.Modal :=
  Admin.setContainer (Some Sample.desktop)
    (Admin.handleScroll Sample.adminCollapsed).

(** The page before any modal is mounted, and a session in which both
    modals are mounted closed and the Admin one is opened and closed. *)
Definition page : ScrollLock.Page :=
  {| ScrollLock.overflow := ""; ScrollLock.admin := None;
     ScrollLock.user := None |}.

Definition lockEvents : list ScrollLock.Event :=
  [ ScrollLock.Render ScrollLock.UserModal false;
    ScrollLock.Render ScrollLock.AdminModal false;
    ScrollLock.Render ScrollLock.AdminModal true ].

Definition adminLockEvents : list ScrollLock.Event :=
  [ ScrollLock.Render ScrollLock.AdminModal true;
    ScrollLock.Render ScrollLock.AdminModal true;
    ScrollLock.Render ScrollLock.AdminModal false;
    ScrollLock.Render ScrollLock.AdminModal true;
    ScrollLock.Unmount ScrollLock.AdminModal ].

(** A project in the shape of the entries of [projects]. *)
Definition bookstore : Projects.Project :=
  {| Projects.id := 3;
     Projects.projectTitle := "Full-Stack Bookstore with Admin CMS";
     Projects.projectDescription := "A full-featured book e-commerce platform";
     Projects.tags := ["React"; "Tailwind CSS"; "Spring Boot"];
     Projects.userApp :=
       {| Projects.appName := "Customer Storefront";
          Projects.appDescription := "Smooth browsing";
          Projects.emoji := "";
          Projects.accentColor := "cyan";
          Projects.modalContent :=
            {[ "title" := Projects.VString "Book E-commerce Platform - User App";
               "mediaType" := Projects.VString "video";
               "stack" := Projects.VList ["React"; "TypeScript"];
               "demoLink" := Projects.VNull ]} |};
     Projects.adminApp :=
       {| Projects.appName := "Store Owner Dashboard";
          Projects.appDescription := "Complete control";
          Projects.emoji := "";
          Projects.accentColor := "pink";
          Projects.modalContent :=
            {[ "title" := Projects.VString "Book E-commerce Platform - Admin App";
               "mediaType" := Projects.VString "video";
               "stack" := Projects.VList ["React"; "TypeScript"];
               "demoLink" := Projects.VNull ]} |};
     Projects.color := "pink" |}.

Definition medical : Projects.Project :=
  {| Projects.id := 2;
     Projects.projectTitle := "ReviseGPT";
     Projects.projectDescription := "An intelligent platform";
     Projects.tags := ["Figma"; "UI/UX Design"];
     Projects.userApp := Projects.userApp bookstore;
     Projects.adminApp := Projects.adminApp bookstore;
     Projects.color := "amber" |}.

(** The three sections of the accordion. *)
Definition bioSections : list AboutMe.Section_ :=
  [ {| AboutMe.id := 0; AboutMe.label := "OVERVIEW";
       AboutMe.content := "Ferhaten"; AboutMe.preview := "Ferhaten..." |};
    {| AboutMe.id := 1; AboutMe.label := "EXPERTISE";
       AboutMe.content := "I design in Figma";
       AboutMe.preview := "I design..." |};
    {| AboutMe.id := 2; AboutMe.label := "BACKGROUND";
       AboutMe.content := "Final-year Computer Science student";
       AboutMe.preview := "Final-year..." |} ].

(** A visitor filling in the form. *)
Definition formEvents : list Contact.Event :=
  [ Contact.Focus "name"; Contact.Change "name" "A";
    Contact.Change "name" "Ad"; Contact.Blur "name";
    Contact.Focus "email"; Contact.Change "email" "ad@example.org";
    Contact.Submit; Contact.Change "name" "Ada" ].

End Sample2.

(** ** Loops that only push *)

(** Decide the guards of a navigation call on an integer index. *)
Ltac guards :=
  repeat first
    [ progress simpl
    | case_bool_decide; try lia
    | progress simplify_eq/= ].

Section forEach.
Context {A B : Type}.

Lemma forEach_from_ext {St} (f g : St → A → nat → St) i l s :
  (∀ s x j, f s x j = g s x j) →
  forEach_from f i l s = forEach_from g i l s.
Proof.
  intros Hfg. revert i s.
  induction l as [|x l IH]; intros i s; simpl; [done|].
  by rewrite Hfg, IH.
Qed.

(** A loop whose body pushes one element per item appends the indexed
    image of the list. *)
Lemma forEach_from_push (g : A → nat → B) i l (acc : list B) :
  forEach_from (λ acc x j, push acc (g x j)) i l acc
  = acc ++ imap (λ j x, g x (i + j)%nat) l.
Proof.
  revert i acc.
  induction l as [|x l IH]; intros i acc; simpl.
  - by rewrite app_nil_r.
  - rewrite IH. unfold push. rewrite <-app_assoc. simpl.
    rewrite Nat.add_0_r. do 2 f_equal.
    apply imap_ext. intros j y _. simpl. f_equal. lia.
Qed.

(** A loop whose body appends a block per item appends the blocks in
    order. *)
Lemma forEach_from_append (h : A → nat → list B) i l (acc : list B) :
  forEach_from (λ acc x j, acc ++ h x j) i l acc
  = acc ++ mjoin (imap (λ j x, h x (i + j)%nat) l).
Proof.
  revert i acc.
  induction l as [|x l IH]; intros i acc; simpl.
  - by rewrite app_nil_r.
  - rewrite IH, <-app_assoc, Nat.add_0_r. do 3 f_equal.
    apply imap_ext. intros j y _. simpl. f_equal. lia.
Qed.
End forEach.

(** ** Frame list of AdminCaseStudy *)

Module AdminFrames.
Import Admin.

Lemma frames_unfold cs :
  frames (Some cs)
  = Intro (cs_title cs) (cs_description cs) :: mjoin (imap panelFrames (panels cs)).
Proof.
  unfold frames, forEach.
  rewrite (forEach_from_ext _
             (λ acc panel p, acc ++ panelFrames p panel)).
  - by rewrite forEach_from_append.
  - intros acc panel p.
    apply (forEach_from_push (λ mockup m, contentFrame panel p mockup m)).
Qed.

Lemma length_panelFrames p panel :
  length (panelFrames p panel) = length (mockups panel).
Proof. unfold panelFrames. by rewrite length_imap. Qed.

Lemma length_imap_panelFrames (f : nat → nat) l :
  length <$> imap (λ j, panelFrames (f j)) l = length ∘ mockups <$> l.
Proof.
  revert f. induction l as [|x l IH]; intros f; simpl; [done|].
  rewrite length_panelFrames. f_equal. apply (IH (f ∘ S)).
Qed.

Lemma length_frames cs :
  length (frames (Some cs))
  = (1 + sum_list (length ∘ mockups <$> panels cs))%nat.
Proof.
  rewrite frames_unfold. simpl. rewrite length_join.
  by rewrite (length_imap_panelFrames id).
Qed.

Lemma lengths_take_panelFrames p l :
  length <$> take p (imap panelFrames l) = length ∘ mockups <$> take p l.
Proof.
  rewrite !fmap_take. f_equal. apply (length_imap_panelFrames id).
Qed.

(** The frame of mockup [m] of panel [p] sits [m] places after the
    panel's first frame. *)
Lemma frames_lookup_mockup cs p panel m mockup :
  panels cs !! p = Some panel →
  mockups panel !! m = Some mockup →
  frames (Some cs) !! (frameOffset cs p + m)%nat
  = Some (contentFrame panel p mockup m).
Proof.
  intros Hp Hm. rewrite frames_unfold. unfold frameOffset. simpl.
  apply join_lookup_Some. exists p, (panelFrames p panel), m.
  split_and!.
  - by rewrite list_lookup_imap, Hp.
  - unfold panelFrames. by rewrite list_lookup_imap, Hm.
  - by rewrite lengths_take_panelFrames.
Qed.

(** Every frame is the intro frame at index 0 or the frame of one
    mockup. *)
Lemma frames_lookup_inv cs i f :
  frames (Some cs) !! i = Some f →
  (i = 0%nat ∧ f = Intro (cs_title cs) (cs_description cs))
  ∨ ∃ p panel m mockup,
      panels cs !! p = Some panel ∧ mockups panel !! m = Some mockup
      ∧ i = (frameOffset cs p + m)%nat ∧ f = contentFrame panel p mockup m.
Proof.
  rewrite frames_unfold. destruct i as [|i]; simpl.
  { intros [= <-]. by left. }
  intros (p & fs & m & Hfs & Hf & ->)%join_lookup_Some. right.
  rewrite list_lookup_imap in Hfs.
  destruct (panels cs !! p) as [panel|] eqn:Hp; simplify_eq/=.
  unfold panelFrames in Hf. rewrite list_lookup_imap in Hf.
  destruct (mockups panel !! m) as [mockup|] eqn:Hm; simplify_eq/=.
  exists p, panel, m, mockup. split_and!; try done.
  unfold frameOffset. by rewrite lengths_take_panelFrames.
Qed.

(** C1: for a content tree with mockup counts M_i, the frame list of
    AdminCaseStudy has 1 + sum of M_i elements; its element at index 0 is
    the intro frame; a content tree without panels yields the intro frame
    alone. *)
Theorem frames_count_and_intro :
  (∀ cs, length (frames (Some cs))
         = (1 + sum_list (length ∘ mockups <$> panels cs))%nat)
  ∧ (∀ cs, frames (Some cs) !! 0%nat
           = Some (Intro (cs_title cs) (cs_description cs)))
  ∧ (∀ t d, frames (Some {| cs_title := t; cs_description := d; panels := [] |})
            = [Intro t d]).
Proof.
  split_and!.
  - apply length_frames.
  - intros cs. by rewrite frames_unfold.
  - done.
Qed.

(** C8: the frame of mockup [m] (0-based) of panel [p] stands [m] places
    after the first frame of its panel, panels in order, and carries
    imageNumber [m + 1], the panel's mockup count, the panel's position
    and the first/last flags; every content frame of the list is such a
    frame; and for two panels of 1 and 3 mockups, frame 1 is first and
    last of panel 0 and frame 4 is the last, not the first, of panel 1
    with imageNumber 3 of 3. *)
Theorem content_frame_fields :
  (∀ cs p panel m mk,
     panels cs !! p = Some panel → mockups panel !! m = Some mk →
     ∃ c, frames (Some cs) !! (frameOffset cs p + m)%nat = Some (Content c)
       ∧ imageNumber c = (m + 1)%nat
       ∧ totalImages c = length (mockups panel)
       ∧ panelIndex c = p
       ∧ isFirstInPanel c = bool_decide (m = 0%nat)
       ∧ isLastInPanel c = bool_decide ((m + 1)%nat = length (mockups panel))
       ∧ mockup c = mk
       ∧ panelLabel c = label panel
       ∧ panelTitle c = title panel
       ∧ frameDescription c = description panel)
  ∧ (∀ cs i c,
       frames (Some cs) !! i = Some (Content c) →
       ∃ panel,
         panels cs !! panelIndex c = Some panel
         ∧ (1 ≤ imageNumber c ≤ totalImages c)%nat
         ∧ totalImages c = length (mockups panel)
         ∧ mockups panel !! (imageNumber c - 1)%nat = Some (mockup c)
         ∧ i = (frameOffset cs (panelIndex c) + (imageNumber c - 1))%nat
         ∧ isFirstInPanel c = bool_decide (imageNumber c = 1%nat)
         ∧ isLastInPanel c = bool_decide (imageNumber c = totalImages c)
         ∧ panelLabel c = label panel
         ∧ panelTitle c = title panel
         ∧ frameDescription c = description panel)
  ∧ (∀ t d la ta da a1 lb tb db b1 b2 b3,
       let cs :=
         {| cs_title := t; cs_description := d;
            panels :=
              [ {| label := la; title := ta; description := da;
                   mockups := [a1] |};
                {| label := lb; title := tb; description := db;
                   mockups := [b1; b2; b3] |} ] |} in
       length (frames (Some cs)) = 5%nat
       ∧ frames (Some cs) !! 1%nat
         = Some (Content {| panelLabel := la; panelTitle := ta;
                            frameDescription := da; mockup := a1;
                            imageNumber := 1; totalImages := 1;
                            panelIndex := 0;
                            isFirstInPanel := true; isLastInPanel := true |})
       ∧ frames (Some cs) !! 4%nat
         = Some (Content {| panelLabel := lb; panelTitle := tb;
                            frameDescription := db; mockup := b3;
                            imageNumber := 3; totalImages := 3;
                            panelIndex := 1;
                            isFirstInPanel := false; isLastInPanel := true |})).
Proof.
  split_and!.
  - intros cs p panel m mk Hp Hm.
    eexists. split; [by apply frames_lookup_mockup|]. simpl.
    split_and!; try done.
    apply bool_decide_ext. lia.
  - intros cs i c Hi.
    destruct (frames_lookup_inv _ _ _ Hi)
      as [[_ ?]|(p & panel & m & mk & Hp & Hm & -> & Hc)]; [done|].
    injection Hc as ->. simpl. exists panel.
    pose proof (lookup_lt_Some _ _ _ Hm).
    replace (m + 1 - 1)%nat with m by lia.
    split_and!; try done; try lia; apply bool_decide_ext; lia.
  - intros. split_and!; reflexivity.
Qed.

End AdminFrames.

(** ** Navigation *)

Lemma admin_navigate_out_of_range len v i w :
  i < 0 ∨ Z.of_nat len ≤ i →
  Admin.navigateToFrame_closure len v (Js.Num i) w = w.
Proof. intros Hi. unfold Admin.navigateToFrame_closure. guards; done. Qed.

Lemma user_navigate_out_of_range cs v i w :
  i < 0 ∨ Z.of_nat (User.totalPanels cs) ≤ i →
  User.navigateToPanel_closure (Some cs) v (Js.Num i) w = w.
Proof.
  unfold User.totalPanels. intros Hi.
  unfold User.navigateToPanel_closure. guards; done.
Qed.

Lemma admin_navigate_valid len v i c w :
  Admin.scrollContainerRef w = Some c →
  0 ≤ i < Z.of_nat len →
  Admin.navigateToFrame_closure len v (Js.Num i) w
  = Admin.setCurrentFrame (Js.Num i) (Admin.scrollTo (scrollRequest v c i) w).
Proof.
  intros Hc Hi. unfold Admin.navigateToFrame_closure, scrollRequest.
  rewrite Hc. guards. by destruct v.
Qed.

Lemma user_navigate_valid cs v i c w :
  User.scrollContainerRef w = Some c →
  0 ≤ i < Z.of_nat (User.totalPanels cs) →
  User.navigateToPanel_closure (Some cs) v (Js.Num i) w
  = User.setCurrentPanel (Js.Num i) (User.scrollTo (scrollRequest v c i) w).
Proof.
  unfold User.totalPanels. intros Hc Hi.
  unfold User.navigateToPanel_closure, scrollRequest.
  rewrite Hc. guards. by destruct v.
Qed.

(** C3: a navigation to an index below 0 or at or beyond the frame count
    returns the component as it was (index, zoom, open flag, container and
    requested scrolls), in both modals; so ArrowRight on the last frame
    changes nothing, whichever layout flag the key listener captured. *)
Theorem navigate_out_of_range_noop :
  (∀ w i, i < 0 ∨ Z.of_nat (Admin.frameCount w) ≤ i →
          Admin.navigateToFrame (Js.Num i) w = w)
  ∧ (∀ w v, Admin.currentFrame w = Js.Num (Z.of_nat (Admin.frameCount w) - 1) →
            Admin.handleKeyDown v "ArrowRight" w = w
            ∧ Admin.keydown v "ArrowRight" w = w)
  ∧ (∀ w i, i < 0 ∨ Z.of_nat (User.frameCount w) ≤ i →
            User.navigateToPanel (Js.Num i) w = w)
  ∧ (∀ w v, User.currentPanel w = Js.Num (Z.of_nat (User.frameCount w) - 1) →
            User.handleKeyDown v "ArrowRight" w = w
            ∧ User.keydown v "ArrowRight" w = w).
Proof.
  split_and!.
  - intros w i Hi. by apply admin_navigate_out_of_range.
  - intros w v Hcur.
    assert (Admin.handleKeyDown v "ArrowRight" w = w) as Hkey.
    { unfold Admin.handleKeyDown. simpl. rewrite Hcur. simpl.
      apply admin_navigate_out_of_range. unfold Admin.frameCount. lia. }
    split; [done|]. unfold Admin.keydown. rewrite Hkey. by case_match.
  - intros w i Hi. unfold User.navigateToPanel, User.frameCount in *.
    destruct (User.caseStudy w) as [cs|]; [|done].
    by apply user_navigate_out_of_range.
  - intros w v Hcur.
    assert (User.handleKeyDown v "ArrowRight" w = w) as Hkey.
    { unfold User.handleKeyDown, User.frameCount in *. simpl. rewrite Hcur.
      destruct (User.caseStudy w) as [cs|]; [|done]. simpl.
      apply user_navigate_out_of_range. lia. }
    split; [done|]. unfold User.keydown. rewrite Hkey. by case_match.
Qed.

Lemma navigate_out_of_range_noop_witness :
  Admin.navigateToFrame (Js.Num 5) Sample.adminOpen = Sample.adminOpen
  ∧ Admin.keydown false "ArrowRight" Sample.adminLast = Sample.adminLast
  ∧ User.navigateToPanel (Js.Num (-1)) Sample.userOpen = Sample.userOpen
  ∧ User.keydown true "ArrowRight" Sample.userLast = Sample.userLast.
Proof.
  destruct navigate_out_of_range_noop as (Ha & Hak & Hu & Huk).
  split_and!.
  - apply Ha. right. vm_compute. discriminate.
  - apply Hak. reflexivity.
  - apply Hu. left. lia.
  - apply Huk. reflexivity.
Defined.

(** The navigation callback of the current render: with the container
    mounted, [navigateToFrame] or [navigateToPanel] called with a valid
    index sets the current index to it and requests one scroll, to the
    index times the container's height (vertical) or width (horizontal),
    leaving the rest as it was; the extent is the one the container has
    when the call is made, so after a resize the next call uses the new
    extent.  The arrows and dots call this callback; the key listener may
    call the one of an earlier render. *)
Theorem navigate_valid_scrolls :
  (∀ w c i,
     Admin.scrollContainerRef w = Some c →
     0 ≤ i < Z.of_nat (Admin.frameCount w) →
     Admin.navigateToFrame (Js.Num i) w
     = Admin.setCurrentFrame (Js.Num i)
         (Admin.scrollTo (scrollRequest (Admin.isVerticalLayout w) c i) w))
  ∧ (∀ w c c' innerWidth i j,
       Admin.scrollContainerRef w = Some c →
       0 ≤ i < Z.of_nat (Admin.frameCount w) →
       0 ≤ j < Z.of_nat (Admin.frameCount w) →
       let resized :=
         Admin.checkLayout innerWidth
           (Admin.setContainer (Some c') (Admin.navigateToFrame (Js.Num i) w)) in
       Admin.currentFrame (Admin.navigateToFrame (Js.Num j) resized) = Js.Num j
       ∧ Admin.scrollRequests (Admin.navigateToFrame (Js.Num j) resized)
         = Admin.scrollRequests w
           ++ [scrollRequest (Admin.isVerticalLayout w) c i;
               scrollRequest (bool_decide (innerWidth < 1025)) c' j])
  ∧ (∀ w c i,
       User.scrollContainerRef w = Some c →
       0 ≤ i < Z.of_nat (User.frameCount w) →
       User.navigateToPanel (Js.Num i) w
       = User.setCurrentPanel (Js.Num i)
           (User.scrollTo (scrollRequest (User.isVerticalLayout w) c i) w))
  ∧ (∀ w c c' innerWidth i j,
       User.scrollContainerRef w = Some c →
       0 ≤ i < Z.of_nat (User.frameCount w) →
       0 ≤ j < Z.of_nat (User.frameCount w) →
       let resized :=
         User.checkLayout innerWidth
           (User.setContainer (Some c') (User.navigateToPanel (Js.Num i) w)) in
       User.currentPanel (User.navigateToPanel (Js.Num j) resized) = Js.Num j
       ∧ User.scrollRequests (User.navigateToPanel (Js.Num j) resized)
         = User.scrollRequests w
           ++ [scrollRequest (User.isVerticalLayout w) c i;
               scrollRequest (bool_decide (innerWidth < 641)) c' j]).
Proof.
  split_and!.
  - intros w c i Hc Hi. by apply admin_navigate_valid.
  - intros w c c' innerWidth i j Hc Hi Hj resized.
    assert (Admin.scrollContainerRef resized = Some c') as Hc' by done.
    assert (Admin.frameCount resized = Admin.frameCount w) as Hn.
    { unfold resized, Admin.navigateToFrame.
      by rewrite (admin_navigate_valid _ _ _ c). }
    assert (Admin.navigateToFrame (Js.Num j) resized
            = Admin.setCurrentFrame (Js.Num j)
                (Admin.scrollTo
                   (scrollRequest (Admin.isVerticalLayout resized) c' j) resized))
      as ->.
    { apply admin_navigate_valid; [done|].
      fold (Admin.frameCount resized). lia. }
    split; [done|]. simpl. unfold resized, Admin.navigateToFrame.
    rewrite (admin_navigate_valid _ _ _ c) by done. simpl.
    unfold push. by rewrite <-app_assoc.
  - intros w c i Hc Hi. unfold User.navigateToPanel, User.frameCount in *.
    destruct (User.caseStudy w) as [cs|]; [|simpl in Hi; lia].
    by apply user_navigate_valid.
  - intros w c c' innerWidth i j Hc Hi Hj resized.
    unfold User.frameCount in *.
    destruct (User.caseStudy w) as [cs|] eqn:Hcs; [|simpl in Hi; lia].
    assert (User.navigateToPanel (Js.Num i) w
            = User.setCurrentPanel (Js.Num i)
                (User.scrollTo (scrollRequest (User.isVerticalLayout w) c i) w))
      as Hfirst.
    { unfold User.navigateToPanel. rewrite Hcs. by apply user_navigate_valid. }
    assert (User.scrollContainerRef resized = Some c') as Hc' by done.
    assert (User.caseStudy resized = Some cs) as Hcs'.
    { unfold resized. by rewrite Hfirst. }
    assert (User.navigateToPanel (Js.Num j) resized
            = User.setCurrentPanel (Js.Num j)
                (User.scrollTo
                   (scrollRequest (User.isVerticalLayout resized) c' j) resized))
      as ->.
    { unfold User.navigateToPanel. rewrite Hcs'.
      by apply user_navigate_valid. }
    split; [done|]. simpl. unfold resized. rewrite Hfirst. simpl.
    unfold push. by rewrite <-app_assoc.
Qed.

Lemma navigate_valid_scrolls_witness :
  Admin.navigateToFrame (Js.Num 3) Sample.adminOpen
  = Admin.setCurrentFrame (Js.Num 3)
      (Admin.scrollTo (ScrollLeft (Js.Num 3840)) Sample.adminOpen)
  ∧ Admin.scrollRequests
      (Admin.navigateToFrame (Js.Num 4)
         (Admin.checkLayout 900
            (Admin.setContainer (Some Sample.narrowed)
               (Admin.navigateToFrame (Js.Num 3) Sample.adminOpen))))
    = [ScrollLeft (Js.Num 3840); ScrollTop (Js.Num 2880)]
  ∧ User.navigateToPanel (Js.Num 2) Sample.userOpen
    = User.setCurrentPanel (Js.Num 2)
        (User.scrollTo (ScrollLeft (Js.Num 2560)) Sample.userOpen).
Proof.
  destruct navigate_valid_scrolls as (Ha & Har & Hu & _).
  split_and!.
  - apply (Ha Sample.adminOpen Sample.desktop 3); [reflexivity|].
    by vm_compute.
  - apply (Har Sample.adminOpen Sample.desktop Sample.narrowed 900 3 4);
      [reflexivity| |]; by vm_compute.
  - apply (Hu Sample.userOpen Sample.desktop 2); [reflexivity|].
    by vm_compute.
Defined.

(** C4 at a session of each modal: AdminCaseStudy is opened on a window
    900 px wide, hence in the vertical layout, at index 0; the window is
    widened to 1280 px, which makes the layout horizontal and the container
    1280 by 720; ArrowRight is pressed.  None of [isOpen], [currentFrame],
    [zoomedFrame], [onClose], [caseStudy] has changed, so the key listener is
    the one installed on opening, and the [navigateToFrame] it calls is the
    one of the vertical render: the valid index 1 is set, and the scroll
    requested is to top 720, one container height, in horizontal mode, where
    [navigateToFrame] of the current render requests left 1280, one
    container width.  The same on UserCaseStudy, opened on a window 600 px
    wide. *)
Theorem key_after_resize_scrolls_stale_axis :
  (Admin.isOpen Sample2.adminOnTablet = true
   ∧ Admin.isVerticalLayout Sample2.adminOnTablet = true
   ∧ Admin.currentFrame Sample2.adminWidened
     = Admin.currentFrame Sample2.adminOnTablet
   ∧ Admin.isVerticalLayout Sample2.adminWidened = false
   ∧ Admin.scrollContainerRef Sample2.adminWidened = Some Sample.desktop
   ∧ Admin.frameCount Sample2.adminWidened = 5%nat
   ∧ Admin.keydown (Admin.isVerticalLayout Sample2.adminOnTablet) "ArrowRight"
       Sample2.adminWidened
     = Admin.setCurrentFrame (Js.Num 1)
         (Admin.scrollTo (ScrollTop (Js.Num 720)) Sample2.adminWidened)
   ∧ Admin.navigateToFrame (Js.Num 1) Sample2.adminWidened
     = Admin.setCurrentFrame (Js.Num 1)
         (Admin.scrollTo (ScrollLeft (Js.Num 1280)) Sample2.adminWidened))
  ∧ (User.isOpen Sample2.userOnPhone = true
     ∧ User.isVerticalLayout Sample2.userOnPhone = true
     ∧ User.currentPanel Sample2.userWidened
       = User.currentPanel Sample2.userOnPhone
     ∧ User.isVerticalLayout Sample2.userWidened = false
     ∧ User.scrollContainerRef Sample2.userWidened = Some Sample.desktop
     ∧ User.frameCount Sample2.userWidened = 3%nat
     ∧ User.keydown (User.isVerticalLayout Sample2.userOnPhone) "ArrowRight"
         Sample2.userWidened
       = User.setCurrentPanel (Js.Num 1)
           (User.scrollTo (ScrollTop (Js.Num 720)) Sample2.userWidened)
     ∧ User.navigateToPanel (Js.Num 1) Sample2.userWidened
       = User.setCurrentPanel (Js.Num 1)
           (User.scrollTo (ScrollLeft (Js.Num 1280)) Sample2.userWidened)).
Proof. split; split_and!; reflexivity. Qed.

(** C10: while the container ref is null, a navigation returns the
    component as it was, whatever the index; in particular the current
    index is not set to a valid index. *)
Theorem navigate_unmounted_noop :
  (∀ w index, Admin.scrollContainerRef w = None →
              Admin.navigateToFrame index w = w)
  ∧ (∀ w index, User.scrollContainerRef w = None →
                User.navigateToPanel index w = w).
Proof.
  split.
  - intros w index Hc.
    unfold Admin.navigateToFrame, Admin.navigateToFrame_closure.
    rewrite Hc. by case_match.
  - intros w index Hc.
    unfold User.navigateToPanel, User.navigateToPanel_closure.
    rewrite Hc. by repeat case_match.
Qed.

Lemma navigate_unmounted_noop_witness :
  (0 ≤ 3 < Z.of_nat (Admin.frameCount Sample.adminUnmounted)
   ∧ Admin.currentFrame (Admin.navigateToFrame (Js.Num 3) Sample.adminUnmounted)
     = Js.Num 0)
  ∧ (0 ≤ 2 < Z.of_nat (User.frameCount Sample.userUnmounted)
     ∧ User.currentPanel (User.navigateToPanel (Js.Num 2) Sample.userUnmounted)
       = Js.Num 0).
Proof.
  destruct navigate_unmounted_noop as [Ha Hu].
  split; (split; [by vm_compute|]).
  - by rewrite (Ha Sample.adminUnmounted (Js.Num 3) eq_refl).
  - by rewrite (Hu Sample.userUnmounted (Js.Num 2) eq_refl).
Defined.

(** ** Scroll handler *)

(** [Math.round(p / s)] for a positive divisor is the integer [r] with
    [r - 1/2 ≤ p/s < r + 1/2]. *)
Lemma round_div_nearest p s :
  0 < s →
  ∃ r, Js.round_div p s = Js.Num r
       ∧ (2 * r - 1) * s ≤ 2 * p < (2 * r + 1) * s.
Proof.
  intros Hs. unfold Js.round_div. case_decide; [lia|].
  eexists. split; [done|].
  pose proof (Z.div_mod (2 * p + s) (2 * s)).
  pose proof (Z.mod_pos_bound (2 * p + s) (2 * s)).
  nia.
Qed.

Lemma round_div_zero p : ¬ ∃ r, Js.round_div p 0 = Js.Num r.
Proof. intros [r Hr]. unfold Js.round_div in Hr. by destruct p. Qed.

(** C2, as the code has it: with the container mounted and of positive
    extent, the scroll handler sets the current index to
    round(scrollOffset / frameExtent), halves rounded up, whatever the
    frame count (no clamping), and changes nothing else; with an extent of
    zero the index it sets is no integer; with the ref null it changes
    nothing. *)
Theorem handleScroll_rounds :
  (∀ w, Admin.scrollContainerRef w = None → Admin.handleScroll w = w)
  ∧ (∀ w c,
       Admin.scrollContainerRef w = Some c →
       0 < frameExtent (Admin.isVerticalLayout w) c →
       ∃ r, Admin.handleScroll w = Admin.setCurrentFrame (Js.Num r) w
            ∧ (2 * r - 1) * frameExtent (Admin.isVerticalLayout w) c
              ≤ 2 * scrollOffset (Admin.isVerticalLayout w) c
              < (2 * r + 1) * frameExtent (Admin.isVerticalLayout w) c)
  ∧ (∀ w c,
       Admin.scrollContainerRef w = Some c →
       frameExtent (Admin.isVerticalLayout w) c = 0 →
       ¬ ∃ r, Admin.currentFrame (Admin.handleScroll w) = Js.Num r)
  ∧ (∀ w, User.scrollContainerRef w = None → User.handleScroll w = w)
  ∧ (∀ w c,
       User.scrollContainerRef w = Some c →
       0 < frameExtent (User.isVerticalLayout w) c →
       ∃ r, User.handleScroll w = User.setCurrentPanel (Js.Num r) w
            ∧ (2 * r - 1) * frameExtent (User.isVerticalLayout w) c
              ≤ 2 * scrollOffset (User.isVerticalLayout w) c
              < (2 * r + 1) * frameExtent (User.isVerticalLayout w) c)
  ∧ (∀ w c,
       User.scrollContainerRef w = Some c →
       frameExtent (User.isVerticalLayout w) c = 0 →
       ¬ ∃ r, User.currentPanel (User.handleScroll w) = Js.Num r).
Proof.
  split_and!.
  - intros w Hc. unfold Admin.handleScroll. by rewrite Hc.
  - intros w c Hc Hs. unfold Admin.handleScroll. rewrite Hc.
    destruct (round_div_nearest (scrollOffset (Admin.isVerticalLayout w) c) _ Hs)
      as (r & Hr & Hbounds).
    exists r. split; [|done]. f_equal. exact Hr.
  - intros w c Hc Hs. unfold Admin.handleScroll. rewrite Hc. simpl.
    fold (frameExtent (Admin.isVerticalLayout w) c). rewrite Hs.
    apply round_div_zero.
  - intros w Hc. unfold User.handleScroll. by rewrite Hc.
  - intros w c Hc Hs. unfold User.handleScroll. rewrite Hc.
    destruct (round_div_nearest (scrollOffset (User.isVerticalLayout w) c) _ Hs)
      as (r & Hr & Hbounds).
    exists r. split; [|done]. f_equal. exact Hr.
  - intros w c Hc Hs. unfold User.handleScroll. rewrite Hc. simpl.
    fold (frameExtent (User.isVerticalLayout w) c). rewrite Hs.
    apply round_div_zero.
Qed.

Lemma handleScroll_rounds_witness :
  (∃ r, Admin.handleScroll Sample.adminScrolled
        = Admin.setCurrentFrame (Js.Num r) Sample.adminScrolled
        ∧ (2 * r - 1) * 600 ≤ 2 * 3000 < (2 * r + 1) * 600)
  ∧ (∃ r, User.handleScroll Sample.userScrolled
          = User.setCurrentPanel (Js.Num r) Sample.userScrolled
          ∧ (2 * r - 1) * 600 ≤ 2 * 3000 < (2 * r + 1) * 600)
  ∧ ¬ ∃ r, Admin.currentFrame (Admin.handleScroll Sample.adminCollapsed)
           = Js.Num r.
Proof.
  destruct handleScroll_rounds as (_ & Ha & Ha0 & _ & Hu & _).
  split_and!.
  - apply (Ha Sample.adminScrolled Sample.scrolledDown); [reflexivity|].
    by vm_compute.
  - apply (Hu Sample.userScrolled Sample.scrolledDown); [reflexivity|].
    by vm_compute.
  - apply (Ha0 Sample.adminCollapsed Sample.collapsed); reflexivity.
Defined.

(** C2 as stated fails: on a five-frame AdminCaseStudy (three-panel
    UserCaseStudy) scrolled 3000 px down a 600 px container, the handler
    sets the index to 5, outside [0, frameCount - 1]; and with a container
    of extent zero the index becomes NaN. *)
Lemma handleScroll_not_clamped :
  Admin.frameCount Sample.adminScrolled = 5%nat
  ∧ Admin.currentFrame (Admin.handleScroll Sample.adminScrolled) = Js.Num 5
  ∧ ¬ inFrameRange (Admin.currentFrame (Admin.handleScroll Sample.adminScrolled))
                   (Admin.frameCount Sample.adminScrolled)
  ∧ User.frameCount Sample.userScrolled = 3%nat
  ∧ User.currentPanel (User.handleScroll Sample.userScrolled) = Js.Num 5
  ∧ ¬ inFrameRange (User.currentPanel (User.handleScroll Sample.userScrolled))
                   (User.frameCount Sample.userScrolled)
  ∧ Admin.currentFrame (Admin.handleScroll Sample.adminCollapsed) = Js.NaN
  ∧ ¬ inFrameRange (Admin.currentFrame (Admin.handleScroll Sample.adminCollapsed))
                   (Admin.frameCount Sample.adminCollapsed).
Proof.
  split_and!; try reflexivity.
  - intros (i & Hi & Hrange). vm_compute in Hi. vm_compute in Hrange.
    injection Hi as <-. by destruct Hrange as [_ []].
  - intros (i & Hi & Hrange). vm_compute in Hi. vm_compute in Hrange.
    injection Hi as <-. by destruct Hrange as [_ []].
  - intros (i & Hi & _). vm_compute in Hi. discriminate.
Qed.

(** ** Opening *)

(** Opening the closed AdminCaseStudy resets the index and the zoom. *)
Lemma admin_open_resets w :
  Admin.isOpen w = false →
  Admin.isOpen (Admin.openAdminCaseStudy w) = true
  ∧ Admin.currentFrame (Admin.openAdminCaseStudy w) = Js.Num 0
  ∧ Admin.zoomedFrame (Admin.openAdminCaseStudy w) = None.
Proof.
  intros Hclosed. unfold Admin.openAdminCaseStudy, Admin.resetOnOpen.
  rewrite Hclosed. simpl. by destruct (Admin.scrollContainerRef w).
Qed.

(** Opening the closed UserCaseStudy resets the index and keeps the zoom
    it finds. *)
Lemma user_open_keeps_zoom w :
  User.isOpen w = false →
  User.isOpen (User.openUserCaseStudy w) = true
  ∧ User.currentPanel (User.openUserCaseStudy w) = Js.Num 0
  ∧ User.activeImageIndex (User.openUserCaseStudy w) = User.activeImageIndex w.
Proof.
  intros Hclosed. unfold User.openUserCaseStudy, User.resetOnOpen.
  rewrite Hclosed. simpl. by destruct (User.scrollContainerRef w).
Qed.

(** C5 at a session of UserCaseStudy: the modal is opened, the first
    image of panel 1 is zoomed, Escape closes the modal, and it is opened
    again; the index is back at 0 but the image is still zoomed.  The same
    steps on AdminCaseStudy, closed while frame 2 is zoomed, end with no
    frame zoomed. *)
Theorem user_reopen_still_zoomed :
  User.isOpen Sample.userReopened = true
  ∧ User.currentPanel Sample.userReopened = Js.Num 0
  ∧ User.activeImageIndex Sample.userReopened = Some "1-0"
  ∧ Admin.isOpen Sample.adminReopenedZoomed = true
  ∧ Admin.currentFrame Sample.adminReopenedZoomed = Js.Num 0
  ∧ Admin.zoomedFrame Sample.adminReopenedZoomed = None.
Proof. split_and!; reflexivity. Qed.

(** ** Keys *)

(** What Escape does in each modal: in AdminCaseStudy, Escape with a
    frame zoomed clears the zoom and changes nothing else (the modal stays
    as open as it was), and Escape with no frame zoomed closes the modal;
    in UserCaseStudy, Escape closes the modal whether or not an image is
    zoomed and leaves the zoom as it was. *)
Theorem escape_key :
  (∀ w v i, Admin.zoomedFrame w = Some i →
            Admin.handleKeyDown v "Escape" w = Admin.setZoomedFrame None w
            ∧ Admin.zoomedFrame (Admin.handleKeyDown v "Escape" w) = None
            ∧ Admin.isOpen (Admin.handleKeyDown v "Escape" w) = Admin.isOpen w)
  ∧ (∀ w v, Admin.zoomedFrame w = None →
            Admin.handleKeyDown v "Escape" w = Admin.setIsOpen false w
            ∧ Admin.isOpen (Admin.handleKeyDown v "Escape" w) = false)
  ∧ (∀ w v, User.handleKeyDown v "Escape" w = User.setIsOpen false w
            ∧ User.isOpen (User.handleKeyDown v "Escape" w) = false
            ∧ User.activeImageIndex (User.handleKeyDown v "Escape" w)
              = User.activeImageIndex w).
Proof.
  split_and!.
  - intros w v i Hz. unfold Admin.handleKeyDown. simpl. by rewrite Hz.
  - intros w v Hz. unfold Admin.handleKeyDown. simpl. by rewrite Hz.
  - intros w v. by unfold User.handleKeyDown.
Qed.

Lemma escape_key_witness :
  (Admin.isOpen Sample.adminZoomed = true
   ∧ Admin.zoomedFrame (Admin.handleKeyDown false "Escape" Sample.adminZoomed)
     = None
   ∧ Admin.isOpen (Admin.handleKeyDown false "Escape" Sample.adminZoomed) = true)
  ∧ Admin.isOpen (Admin.handleKeyDown false "Escape" Sample.adminOpen) = false.
Proof.
  destruct escape_key as (Hz & Hn & _).
  split; [split; [reflexivity|]|].
  - apply (Hz Sample.adminZoomed false 2%nat). reflexivity.
  - apply (Hn Sample.adminOpen false). reflexivity.
Defined.

(** C6 at a state of each modal: UserCaseStudy open with the first image
    of panel 1 zoomed, Escape is pressed; the modal closes and the image
    stays zoomed, where the claim has the zoom cleared and the modal left
    open.  The same key on AdminCaseStudy, open with frame 2 zoomed, clears
    the zoom and leaves the modal open.  The zoom that Escape leaves behind
    is the one the next opening of UserCaseStudy still shows. *)
Lemma user_escape_closes_zoomed :
  User.isOpen Sample.userZoomed = true
  ∧ User.activeImageIndex Sample.userZoomed = Some "1-0"
  ∧ User.isOpen (User.handleKeyDown false "Escape" Sample.userZoomed) = false
  ∧ User.activeImageIndex (User.handleKeyDown false "Escape" Sample.userZoomed)
    = Some "1-0"
  ∧ ¬ (User.activeImageIndex (User.handleKeyDown false "Escape" Sample.userZoomed)
       = None
       ∧ User.isOpen (User.handleKeyDown false "Escape" Sample.userZoomed)
         = true)
  ∧ Admin.isOpen Sample.adminZoomed = true
  ∧ Admin.zoomedFrame Sample.adminZoomed = Some 2%nat
  ∧ Admin.isOpen (Admin.handleKeyDown false "Escape" Sample.adminZoomed) = true
  ∧ Admin.zoomedFrame (Admin.handleKeyDown false "Escape" Sample.adminZoomed)
    = None
  ∧ User.activeImageIndex
      (User.openUserCaseStudy
         (User.keydown false "Escape" Sample.userZoomed))
    = Some "1-0".
Proof. split_and!; try reflexivity. by intros [? ?]. Qed.

(** ** Zoom *)




(** ** Layout *)

(** C9: recomputing the layout sets [isVerticalLayout] from the width
    (below 1025 px in AdminCaseStudy, below 641 px in UserCaseStudy) and the
    keyboard-hint flag, and leaves the current index, the zoom, the open
    flag, the content, the container and the requested scrolls as they
    were. *)
Theorem checkLayout_keeps_index :
  (∀ w innerWidth,
     let w' := Admin.checkLayout innerWidth w in
     Admin.isVerticalLayout w' = bool_decide (innerWidth < 1025)
     ∧ Admin.showKeyboardHints w' = bool_decide (1024 ≤ innerWidth)
     ∧ Admin.currentFrame w' = Admin.currentFrame w
     ∧ Admin.zoomedFrame w' = Admin.zoomedFrame w
     ∧ Admin.isOpen w' = Admin.isOpen w
     ∧ Admin.caseStudy w' = Admin.caseStudy w
     ∧ Admin.scrollContainerRef w' = Admin.scrollContainerRef w
     ∧ Admin.scrollRequests w' = Admin.scrollRequests w)
  ∧ (∀ w innerWidth,
       let w' := User.checkLayout innerWidth w in
       User.isVerticalLayout w' = bool_decide (innerWidth < 641)
       ∧ User.showKeyboardHints w' = bool_decide (1024 ≤ innerWidth)
       ∧ User.currentPanel w' = User.currentPanel w
       ∧ User.activeImageIndex w' = User.activeImageIndex w
       ∧ User.isOpen w' = User.isOpen w
       ∧ User.caseStudy w' = User.caseStudy w
       ∧ User.scrollContainerRef w' = User.scrollContainerRef w
       ∧ User.scrollRequests w' = User.scrollRequests w).
Proof. split; intros w innerWidth; simpl; split_and!; reflexivity. Qed.

(** ** Navigation and the scroll handler together *)

(** [Math.round(p / s)] is [i] as soon as [p/s] lies within half a unit
    of [i], the upper half excluded. *)
Lemma round_div_unique p s i :
  0 < s → (2 * i - 1) * s ≤ 2 * p < (2 * i + 1) * s →
  Js.round_div p s = Js.Num i.
Proof.
  intros Hs Hp. unfold Js.round_div. case_decide; [lia|]. f_equal.
  symmetry. apply (Z.div_unique_pos _ _ _ (2 * p + s - 2 * s * i)); lia.
Qed.

(** X1: Once the container has reached the offset a navigation to a valid
    index asked for, the scroll handler finds the same index and changes
    nothing. *)
Theorem navigate_then_scroll_agrees :
  (∀ w c c' i,
     Admin.scrollContainerRef w = Some c →
     0 ≤ i < Z.of_nat (Admin.frameCount w) →
     0 < frameExtent (Admin.isVerticalLayout w) c →
     frameExtent (Admin.isVerticalLayout w) c'
     = frameExtent (Admin.isVerticalLayout w) c →
     scrollOffset (Admin.isVerticalLayout w) c'
     = frameExtent (Admin.isVerticalLayout w) c * i →
     let settled :=
       Admin.setContainer (Some c') (Admin.navigateToFrame (Js.Num i) w) in
     Admin.currentFrame settled = Js.Num i
     ∧ Admin.handleScroll settled = settled)
  ∧ (∀ w c c' i,
       User.scrollContainerRef w = Some c →
       0 ≤ i < Z.of_nat (User.frameCount w) →
       0 < frameExtent (User.isVerticalLayout w) c →
       frameExtent (User.isVerticalLayout w) c'
       = frameExtent (User.isVerticalLayout w) c →
       scrollOffset (User.isVerticalLayout w) c'
       = frameExtent (User.isVerticalLayout w) c * i →
       let settled :=
         User.setContainer (Some c') (User.navigateToPanel (Js.Num i) w) in
       User.currentPanel settled = Js.Num i
       ∧ User.handleScroll settled = settled).
Proof.
  split.
  - intros w c c' i Hc Hi Hs Hext Hoff settled. unfold settled.
    unfold Admin.navigateToFrame.
    rewrite (admin_navigate_valid _ _ _ c) by done.
    split; [done|]. unfold Admin.handleScroll. simpl.
    fold (scrollOffset (Admin.isVerticalLayout w) c').
    fold (frameExtent (Admin.isVerticalLayout w) c').
    rewrite (round_div_unique _ _ i) by lia. done.
  - intros w c c' i Hc Hi Hs Hext Hoff settled. unfold settled.
    unfold User.navigateToPanel, User.frameCount in *.
    destruct (User.caseStudy w) as [cs|] eqn:Hcs; [|simpl in Hi; lia].
    rewrite (user_navigate_valid _ _ _ c) by done.
    split; [done|]. unfold User.handleScroll. simpl.
    fold (scrollOffset (User.isVerticalLayout w) c').
    fold (frameExtent (User.isVerticalLayout w) c').
    rewrite (round_div_unique _ _ i) by lia. done.
Qed.

(** X2: When the closed modal is opened with its container mounted, the
    container is scrolled to its origin, and the scroll handler, if the
    container has a positive extent, then finds index 0 and changes
    nothing. *)
Theorem open_then_scroll_keeps_first :
  (∀ w c,
     Admin.isOpen w = false →
     Admin.scrollContainerRef w = Some c →
     0 < frameExtent (Admin.isVerticalLayout w) c →
     Admin.scrollContainerRef (Admin.openAdminCaseStudy w)
     = Some (scrollToOrigin c)
     ∧ Admin.currentFrame (Admin.openAdminCaseStudy w) = Js.Num 0
     ∧ Admin.handleScroll (Admin.openAdminCaseStudy w)
       = Admin.openAdminCaseStudy w)
  ∧ (∀ w c,
       User.isOpen w = false →
       User.scrollContainerRef w = Some c →
       0 < frameExtent (User.isVerticalLayout w) c →
       User.scrollContainerRef (User.openUserCaseStudy w)
       = Some (scrollToOrigin c)
       ∧ User.currentPanel (User.openUserCaseStudy w) = Js.Num 0
       ∧ User.handleScroll (User.openUserCaseStudy w)
         = User.openUserCaseStudy w).
Proof.
  split.
  - intros w c Hclosed Hc Hs.
    unfold Admin.openAdminCaseStudy, Admin.resetOnOpen.
    rewrite Hclosed. simpl. rewrite Hc.
    split_and!; [done|done|]. unfold Admin.handleScroll. simpl.
    replace (if Admin.isVerticalLayout w then 0 else 0) with 0
      by (by destruct (Admin.isVerticalLayout w)).
    fold (frameExtent (Admin.isVerticalLayout w) c).
    rewrite (round_div_unique _ _ 0) by lia. done.
  - intros w c Hclosed Hc Hs.
    unfold User.openUserCaseStudy, User.resetOnOpen.
    rewrite Hclosed. simpl. rewrite Hc.
    split_and!; [done|done|]. unfold User.handleScroll. simpl.
    replace (if User.isVerticalLayout w then 0 else 0) with 0
      by (by destruct (User.isVerticalLayout w)).
    fold (frameExtent (User.isVerticalLayout w) c).
    rewrite (round_div_unique _ _ 0) by lia. done.
Qed.

(** ** What the bounds guard lets through *)

(** X3: The guard of a navigation stops the two infinities and lets [NaN]
    through: with the container mounted, a navigation to [NaN] requests a
    scroll to [NaN] and sets the index to [NaN].  So once the index is
    [NaN], ArrowRight and ArrowLeft each do exactly that and the index
    stays [NaN]. *)
Theorem navigate_guard_and_NaN :
  (∀ len v w,
     Admin.navigateToFrame_closure len v Js.PosInfinity w = w
     ∧ Admin.navigateToFrame_closure len v Js.NegInfinity w = w)
  ∧ (∀ w c v key,
       Admin.scrollContainerRef w = Some c →
       Admin.currentFrame w = Js.NaN →
       key = "ArrowRight" ∨ key = "ArrowLeft" →
       Admin.handleKeyDown v key w
       = Admin.setCurrentFrame Js.NaN
           (Admin.scrollTo
              (if v then ScrollTop Js.NaN else ScrollLeft Js.NaN) w))
  ∧ (∀ cs v w,
       User.navigateToPanel_closure cs v Js.PosInfinity w = w
       ∧ User.navigateToPanel_closure cs v Js.NegInfinity w = w)
  ∧ (∀ w c cs v key,
       User.scrollContainerRef w = Some c →
       User.caseStudy w = Some cs →
       User.currentPanel w = Js.NaN →
       key = "ArrowRight" ∨ key = "ArrowLeft" →
       User.handleKeyDown v key w
       = User.setCurrentPanel Js.NaN
           (User.scrollTo
              (if v then ScrollTop Js.NaN else ScrollLeft Js.NaN) w)).
Proof.
  split_and!.
  - intros len v w. by unfold Admin.navigateToFrame_closure.
  - intros w c v key Hc Hcur [-> | ->];
      unfold Admin.handleKeyDown, Admin.navigateToFrame_closure;
      simpl; rewrite Hcur, Hc; simpl; by destruct v.
  - intros [cs|] v w; by unfold User.navigateToPanel_closure.
  - intros w c cs v key Hc Hcs Hcur [-> | ->];
      unfold User.handleKeyDown, User.navigateToPanel_closure;
      simpl; rewrite Hcur, Hcs, Hc; simpl; by destruct v.
Qed.

(** ** Invariants of the input handlers *)

(** A navigation either changes nothing or, its index having passed the
    guard, requests one scroll and sets the index. *)
Lemma admin_navigate_shape len v idx w :
  Admin.navigateToFrame_closure len v idx w = w
  ∨ (Js.lt idx (Js.Num 0) = false
     ∧ Js.ge idx (Js.Num (Z.of_nat len)) = false
     ∧ ∃ req, Admin.navigateToFrame_closure len v idx w
              = Admin.setCurrentFrame idx (Admin.scrollTo req w)).
Proof.
  unfold Admin.navigateToFrame_closure.
  destruct (Js.lt idx (Js.Num 0)) eqn:Hlt; [by left|].
  destruct (Js.ge idx (Js.Num (Z.of_nat len))) eqn:Hge; [by left|]. simpl.
  destruct (Admin.scrollContainerRef w); [|by left].
  right. split_and!; try done. destruct v; by eexists.
Qed.

Lemma user_navigate_shape cs v idx w :
  User.navigateToPanel_closure cs v idx w = w
  ∨ (∃ cs', cs = Some cs'
     ∧ Js.lt idx (Js.Num 0) = false
     ∧ Js.ge idx (Js.Num (Z.of_nat (User.totalPanels cs'))) = false
     ∧ ∃ req, User.navigateToPanel_closure cs v idx w
              = User.setCurrentPanel idx (User.scrollTo req w)).
Proof.
  unfold User.navigateToPanel_closure, User.totalPanels.
  destruct cs as [cs|]; [|by left].
  destruct (Js.lt idx (Js.Num 0)) eqn:Hlt; [by left|].
  destruct (Js.ge idx _) eqn:Hge; [by left|]. simpl.
  destruct (User.scrollContainerRef w); [|by left].
  right. exists cs. split_and!; try done.
  - by rewrite Nat2Z.inj_add.
  - destruct v; by eexists.
Qed.

(** Facts every navigation keeps: the content, the open flag, the zoom,
    and, for an integer index, the index being in range. *)
Lemma admin_navigate_keeps len v idx w :
  let w' := Admin.navigateToFrame_closure len v idx w in
  Admin.caseStudy w' = Admin.caseStudy w
  ∧ Admin.isOpen w' = Admin.isOpen w
  ∧ Admin.zoomedFrame w' = Admin.zoomedFrame w
  ∧ ((∃ i, idx = Js.Num i) →
     inFrameRange (Admin.currentFrame w) len →
     inFrameRange (Admin.currentFrame w') len).
Proof.
  simpl. destruct (admin_navigate_shape len v idx w)
    as [-> | (Hlt & Hge & req & ->)]; [done|].
  split_and!; try done. intros [i ->] _. exists i. split; [done|].
  simpl in *. repeat case_bool_decide; try done. lia.
Qed.

Lemma user_navigate_keeps cs v idx w :
  let w' := User.navigateToPanel_closure cs v idx w in
  User.caseStudy w' = User.caseStudy w
  ∧ User.isOpen w' = User.isOpen w
  ∧ User.activeImageIndex w' = User.activeImageIndex w
  ∧ ((∃ i, idx = Js.Num i) →
     ∀ n, (∀ cs', cs = Some cs' → User.totalPanels cs' = n) →
          inFrameRange (User.currentPanel w) n →
          inFrameRange (User.currentPanel w') n).
Proof.
  simpl. destruct (user_navigate_shape cs v idx w)
    as [-> | (cs' & -> & Hlt & Hge & req & ->)]; [done|].
  split_and!; try done. intros [i ->] n Hn _. exists i. split; [done|].
  rewrite <-(Hn cs' eq_refl).
  simpl in *. repeat case_bool_decide; try done. lia.
Qed.

(** The neighbours of an integer index are integers. *)
Lemma neighbours_integer n len :
  inFrameRange n len →
  (∃ i, Js.add n (Js.Num 1) = Js.Num i) ∧ (∃ i, Js.sub n (Js.Num 1) = Js.Num i).
Proof. intros (i & -> & _). split; by eexists. Qed.

Lemma admin_frameCount_pos w :
  is_Some (Admin.caseStudy w) → (1 ≤ Admin.frameCount w)%nat.
Proof.
  intros [cs Hcs]. unfold Admin.frameCount. rewrite Hcs.
  rewrite AdminFrames.length_frames. lia.
Qed.

(** ** Image keys *)

Module JsStringFacts.
Import JsString.

Lemma all_impl (p q : ascii → bool) s :
  (∀ c, p c = true → q c = true) → all p s = true → all q s = true.
Proof.
  intros Hpq. induction s as [|c s IH]; simpl; [done|].
  rewrite !andb_true_iff. intros [??]. auto.
Qed.

Lemma decimal_digit_cases c :
  isDigit 10 c = true → ∃ d, (d < 10)%N ∧ c = pretty_N_char d.
Proof.
  intros Hc. exists (N_of_ascii c - 48)%N.
  destruct c as [[] [] [] [] [] [] [] []];
    vm_compute in Hc; try discriminate; by vm_compute.
Qed.

Lemma small_cases (d : N) :
  (d < 10)%N →
  (d = 0 ∨ d = 1 ∨ d = 2 ∨ d = 3 ∨ d = 4 ∨ d = 5 ∨ d = 6 ∨ d = 7 ∨ d = 8
   ∨ d = 9)%N.
Proof. lia. Qed.

Ltac digit_cases d Hd :=
  let H := fresh in pose proof (small_cases d Hd) as H; destruct_or! H.

Lemma digitValue_pretty_char d :
  (d < 10)%N → digitValue (pretty_N_char d) = Some d.
Proof. intros Hd. digit_cases d Hd; by subst. Qed.

Lemma isDigit_pretty_char d : (d < 10)%N → isDigit 10 (pretty_N_char d) = true.
Proof. intros Hd. digit_cases d Hd; by subst. Qed.

Lemma decimal_not_dash c :
  isDigit 10 c = true → negb (bool_decide (c = "-"%char)) = true.
Proof.
  intros (d & Hd & ->)%decimal_digit_cases.
  digit_cases d Hd; by subst.
Qed.

(** The digits the printer puts in front of [s] are decimal digits. *)
Lemma pretty_go_decimal x s :
  all (isDigit 10) s = true → all (isDigit 10) (pretty_N_go x s) = true.
Proof.
  revert s. induction (N.lt_wf_0 x) as [x _ IH]; intros s Hs.
  destruct (decide (x = 0)%N) as [->|]; [done|].
  rewrite pretty_N_go_step by lia. apply IH; [apply N.div_lt; lia|].
  simpl. rewrite Hs, isDigit_pretty_char; [done|]. apply N.mod_lt. lia.
Qed.

Lemma pretty_go_nonempty x s : s ≠ "" → pretty_N_go x s ≠ "".
Proof.
  revert s. induction (N.lt_wf_0 x) as [x _ IH]; intros s Hs.
  destruct (decide (x = 0)%N) as [->|]; [done|].
  rewrite pretty_N_go_step by lia. apply IH; [apply N.div_lt; lia|done].
Qed.

(** Reading back the digits the printer put in front of [s] yields the
    number printed, and the reading goes on with [s]. *)
Lemma pretty_go_parse x s :
  parseDigits 10 0 (pretty_N_go x s) = parseDigits 10 x s.
Proof.
  revert s. induction (N.lt_wf_0 x) as [x _ IH]; intros s.
  destruct (decide (x = 0)%N) as [->|]; [done|].
  rewrite pretty_N_go_step by lia. rewrite IH by (apply N.div_lt; lia).
  simpl. rewrite digitValue_pretty_char by (apply N.mod_lt; lia).
  rewrite bool_decide_true by (apply N.mod_lt; lia).
  f_equal. rewrite (N.div_mod x 10) at 3 by lia. lia.
Qed.

Lemma pretty_nat_decimal (n : nat) : all (isDigit 10) (pretty n) = true.
Proof.
  unfold pretty, pretty_nat, pretty, pretty_N.
  case_decide; [done|]. by apply pretty_go_decimal.
Qed.

Lemma pretty_nat_nonempty (n : nat) : pretty n ≠ "".
Proof.
  unfold pretty, pretty_nat, pretty, pretty_N.
  case_decide; [done|].
  rewrite pretty_N_go_step by lia. by apply pretty_go_nonempty.
Qed.

Lemma parseDigits_pretty (n : nat) :
  parseDigits 10 0 (pretty n) = N.of_nat n.
Proof.
  unfold pretty, pretty_nat, pretty, pretty_N.
  case_decide as Hn; [by rewrite Hn|]. by rewrite pretty_go_parse.
Qed.

(** On a non-empty string of decimal digits, [parseInt] reads all of it
    in radix 10. *)
Lemma parseInt_decimal s :
  s ≠ "" → all (isDigit 10) s = true →
  parseInt s = Js.Num (Z.of_N (parseDigits 10 0 s)).
Proof.
  intros Hne Hall. destruct s as [|c s]; [done|]. simpl in Hall.
  apply andb_true_iff in Hall as [Hc Hs].
  destruct (decimal_digit_cases c Hc) as (d & Hd & ->).
  destruct s as [|c' s].
  { digit_cases d Hd; by subst. }
  simpl in Hs. apply andb_true_iff in Hs as [Hc' _].
  destruct (decimal_digit_cases c' Hc') as (d' & Hd' & ->).
  digit_cases d Hd; subst;
    digit_cases d' Hd'; subst; reflexivity.
Qed.

(** [parseInt] reads back the number a template literal printed. *)
Lemma parseInt_pretty (n : nat) : parseInt (pretty n) = Js.Num (Z.of_nat n).
Proof.
  rewrite parseInt_decimal
    by auto using pretty_nat_nonempty, pretty_nat_decimal.
  rewrite parseDigits_pretty. f_equal. lia.
Qed.

Lemma split_no_sep sep s :
  all (λ c, negb (bool_decide (c = sep))) s = true → split sep s = [s].
Proof.
  induction s as [|c s IH]; simpl; [done|].
  rewrite andb_true_iff, negb_true_iff. intros [-> Hs]. by rewrite IH.
Qed.

Lemma split_at_sep sep s1 s2 :
  all (λ c, negb (bool_decide (c = sep))) s1 = true →
  split sep (s1 +:+ String sep s2) = s1 :: split sep s2.
Proof.
  induction s1 as [|c s1 IH]; simpl.
  - intros _. by rewrite bool_decide_true.
  - rewrite andb_true_iff, negb_true_iff. intros [-> Hs]. by rewrite IH.
Qed.

Lemma split_imageKey index mockupIndex :
  split "-" (User.imageKey index mockupIndex)
  = [pretty index; pretty mockupIndex].
Proof.
  unfold User.imageKey.
  change ("-" +:+ pretty mockupIndex) with (String "-" (pretty mockupIndex)).
  rewrite split_at_sep, split_no_sep; [done|..];
    (eapply all_impl; [apply decimal_not_dash|apply pretty_nat_decimal]).
Qed.

End JsStringFacts.

(** Two positions with the same key are the same position. *)
Lemma imageKey_inj index mockupIndex index' mockupIndex' :
  User.imageKey index mockupIndex = User.imageKey index' mockupIndex' →
  index = index' ∧ mockupIndex = mockupIndex'.
Proof.
  intros Hkey.
  pose proof (JsStringFacts.split_imageKey index mockupIndex) as H1.
  rewrite Hkey, JsStringFacts.split_imageKey in H1.
  injection H1 as Hi Hm. by apply (inj pretty) in Hi, Hm.
Qed.

Lemma isActive_imageKey index mockupIndex index' mockupIndex' :
  UserMockup.isActive (Some (User.imageKey index mockupIndex))
                      index' mockupIndex'
  = bool_decide (index' = index ∧ mockupIndex' = mockupIndex).
Proof.
  unfold UserMockup.isActive. apply bool_decide_ext. split.
  - intros Hkey. assert (User.imageKey index mockupIndex
            = User.imageKey index' mockupIndex') as Heq by congruence.
    by destruct (imageKey_inj _ _ _ _ Heq) as [-> ->].
  - by intros [-> ->].
Qed.

(** X11: The key of an image determines its panel and its position: while the
    image at position [(index, mockupIndex)] is zoomed, a mockup is drawn
    as the active one exactly when it is that image, so exactly one mockup
    is. *)
Theorem isActive_only_zoomed index mockupIndex index' mockupIndex' :
  UserMockup.isActive (Some (User.imageKey index mockupIndex))
                      index' mockupIndex'
  = bool_decide (index' = index ∧ mockupIndex' = mockupIndex).
Proof. apply isActive_imageKey. Qed.

(** X12: While the image at position [a] of some panel is zoomed, the mockup
    at position [j] of every panel, not only of that one, is shifted by
    -50 when [j < a], by 50 when [j > a] and not at all when [j = a];
    with no image zoomed nothing is shifted. *)
Theorem xShift_by_position :
  (∀ index a j,
     UserMockup.xShift (Some (User.imageKey index a)) j
     = if decide (j < a)%nat then -50
       else if decide (a < j)%nat then 50 else 0)
  ∧ (∀ j, UserMockup.xShift None j = 0)
  ∧ (∀ index a index' j,
       UserMockup.animateX (Some (User.imageKey index a)) index' j
       = if decide (j < a)%nat then -50
         else if decide (a < j)%nat then 50 else 0).
Proof.
  assert (∀ index a j,
            UserMockup.xShift (Some (User.imageKey index a)) j
            = if decide (j < a)%nat then -50
              else if decide (a < j)%nat then 50 else 0) as Hshift.
  { intros index a j. unfold UserMockup.xShift, JsOps.truthy, JsOps.gt.
    rewrite bool_decide_false; [simpl|].
    - rewrite JsStringFacts.split_imageKey. simpl.
      rewrite JsStringFacts.parseInt_pretty. simpl.
      repeat (case_bool_decide || case_decide); lia.
    - intros Hkey. pose proof (JsStringFacts.split_imageKey index a) as H1.
      by rewrite Hkey in H1. }
  split_and!; [done|done|].
  intros index a index' j. unfold UserMockup.animateX.
  rewrite isActive_imageKey, Hshift.
  case_bool_decide as Heq; [|done]. destruct Heq as [_ ->].
  repeat case_decide; lia.
Qed.

(** ** Arrows and dots *)

Lemma admin_dots_lookup w k :
  AdminView.dots w !! k = Some true ↔
  (k < Admin.frameCount w)%nat ∧ Admin.currentFrame w = Js.Num (Z.of_nat k).
Proof.
  unfold AdminView.dots, Admin.frameCount. rewrite list_lookup_imap.
  destruct (Admin.frames (Admin.caseStudy w) !! k) as [f|] eqn:Hk; simpl.
  - apply lookup_lt_Some in Hk. unfold JsOps.strictEq.
    destruct (Admin.currentFrame w); simpl;
      try case_bool_decide; intuition congruence.
  - apply lookup_ge_None in Hk. split; [done|]. lia.
Qed.

Lemma user_dots_lookup w k :
  UserView.dots w !! k = Some true ↔
  (k < User.frameCount w)%nat ∧ User.currentPanel w = Js.Num (Z.of_nat k).
Proof.
  unfold UserView.dots. rewrite list_lookup_imap.
  destruct (replicate (User.frameCount w) () !! k) as [f|] eqn:Hk; simpl.
  - apply lookup_lt_Some in Hk. rewrite length_replicate in Hk.
    unfold JsOps.strictEq.
    destruct (User.currentPanel w); simpl;
      try case_bool_decide; intuition congruence.
  - apply lookup_ge_None in Hk. rewrite length_replicate in Hk.
    split; [done|]. lia.
Qed.

(** X9: There is one navigation dot per frame; the dot drawn as current is
    the one of the index when the index is in range, and no dot is drawn
    as current when it is not, as after a scroll beyond the last frame. *)
Theorem dots_mark_current :
  (∀ w, length (AdminView.dots w) = Admin.frameCount w)
  ∧ (∀ w i k,
       Admin.currentFrame w = Js.Num i →
       0 ≤ i < Z.of_nat (Admin.frameCount w) →
       AdminView.dots w !! k = Some true ↔ Z.of_nat k = i)
  ∧ (∀ w k,
       ¬ inFrameRange (Admin.currentFrame w) (Admin.frameCount w) →
       AdminView.dots w !! k ≠ Some true)
  ∧ (∀ w, length (UserView.dots w) = User.frameCount w)
  ∧ (∀ w i k,
       User.currentPanel w = Js.Num i →
       0 ≤ i < Z.of_nat (User.frameCount w) →
       UserView.dots w !! k = Some true ↔ Z.of_nat k = i)
  ∧ (∀ w k,
       ¬ inFrameRange (User.currentPanel w) (User.frameCount w) →
       UserView.dots w !! k ≠ Some true).
Proof.
  split_and!.
  - intros w. unfold AdminView.dots. by rewrite length_imap.
  - intros w i k Hcur Hi. rewrite admin_dots_lookup, Hcur. split.
    + by intros [_ [= ->]].
    + intros <-. split; [lia|done].
  - intros w k Hout [Hk Hcur]%admin_dots_lookup. apply Hout.
    exists (Z.of_nat k). split; [done|lia].
  - intros w. unfold UserView.dots. by rewrite length_imap, length_replicate.
  - intros w i k Hcur Hi. rewrite user_dots_lookup, Hcur. split.
    + by intros [_ [= ->]].
    + intros <-. split; [lia|done].
  - intros w k Hout [Hk Hcur]%user_dots_lookup. apply Hout.
    exists (Z.of_nat k). split; [done|lia].
Qed.

(** The document's capture listener only ever clears the zoom. *)
Lemma user_documentClick_container b w :
  User.scrollContainerRef (UserView.documentClick b w)
  = User.scrollContainerRef w.
Proof.
  unfold UserView.documentClick, User.handleClick. by repeat case_match.
Qed.

(** X10: In the horizontal layout, with the modal drawn, the container
    mounted and the index in range: the previous arrow is shown exactly
    when the index is above 0 and the next arrow exactly when it is below
    the last, and a shown arrow moves the index by one.  In the vertical
    layout neither arrow is shown. *)
Theorem arrows_move_by_one :
  (∀ w c i,
     AdminView.rendered w = true →
     Admin.isVerticalLayout w = false →
     Admin.scrollContainerRef w = Some c →
     Admin.currentFrame w = Js.Num i →
     0 ≤ i < Z.of_nat (Admin.frameCount w) →
     AdminView.prevArrowShown w = bool_decide (0 < i)
     ∧ AdminView.nextArrowShown w
       = bool_decide (i < Z.of_nat (Admin.frameCount w) - 1)
     ∧ Admin.currentFrame (AdminView.clickPrev w) = Js.Num (Z.max 0 (i - 1))
     ∧ Admin.currentFrame (AdminView.clickNext w)
       = Js.Num (Z.min (Z.of_nat (Admin.frameCount w) - 1) (i + 1)))
  ∧ (∀ w, Admin.isVerticalLayout w = true →
          AdminView.prevArrowShown w = false
          ∧ AdminView.nextArrowShown w = false)
  ∧ (∀ w c i,
       UserView.rendered w = true →
       User.isVerticalLayout w = false →
       User.scrollContainerRef w = Some c →
       User.currentPanel w = Js.Num i →
       0 ≤ i < Z.of_nat (User.frameCount w) →
       UserView.prevArrowShown w = bool_decide (0 < i)
       ∧ UserView.nextArrowShown w
         = bool_decide (i < Z.of_nat (User.frameCount w) - 1)
       ∧ User.currentPanel (UserView.clickPrev w) = Js.Num (Z.max 0 (i - 1))
       ∧ User.currentPanel (UserView.clickNext w)
         = Js.Num (Z.min (Z.of_nat (User.frameCount w) - 1) (i + 1)))
  ∧ (∀ w, User.isVerticalLayout w = true →
          UserView.prevArrowShown w = false
          ∧ UserView.nextArrowShown w = false).
Proof.
  split_and!.
  - intros w c i Hr Hv Hc Hcur Hi.
    unfold AdminView.clickPrev, AdminView.clickNext, AdminView.clickPrevOn,
      AdminView.clickNextOn, AdminView.prevArrowShown,
      AdminView.nextArrowShown, JsOps.gt.
    rewrite Hr, Hv, Hcur. simpl. unfold Admin.frameCount in *.
    split_and!; try done.
    + case_bool_decide.
      * rewrite (admin_navigate_valid _ _ _ c) by (done || lia).
        simpl. f_equal. lia.
      * rewrite Hcur. f_equal. lia.
    + case_bool_decide.
      * rewrite (admin_navigate_valid _ _ _ c) by (done || lia).
        simpl. f_equal. lia.
      * rewrite Hcur. f_equal. lia.
  - intros w Hv. unfold AdminView.prevArrowShown, AdminView.nextArrowShown.
    rewrite Hv. simpl. by rewrite !andb_false_r.
  - intros w c i Hr Hv Hc Hcur Hi.
    unfold UserView.clickPrev, UserView.clickNext, UserView.clickPrevOn,
      UserView.clickNextOn, UserView.prevArrowShown,
      UserView.nextArrowShown, JsOps.gt.
    rewrite Hr, Hv, Hcur. simpl.
    unfold User.frameCount in *.
    destruct (User.caseStudy w) as [cs|] eqn:Hcs; [|simpl in Hi; lia].
    assert (User.scrollContainerRef (UserView.documentClick false w) = Some c)
      as Hc' by (by rewrite user_documentClick_container).
    split_and!; try done.
    + case_bool_decide.
      * rewrite (user_navigate_valid _ _ _ c) by (done || lia).
        simpl. f_equal. lia.
      * rewrite Hcur. f_equal. lia.
    + case_bool_decide.
      * rewrite (user_navigate_valid _ _ _ c) by (done || lia).
        simpl. f_equal. lia.
      * rewrite Hcur. f_equal. lia.
  - intros w Hv. unfold UserView.prevArrowShown, UserView.nextArrowShown.
    rewrite Hv. simpl. by rewrite !andb_false_r.
Qed.

(** ** Closing UserCaseStudy by a click *)

Lemma imageKey_nonempty index mockupIndex :
  User.imageKey index mockupIndex ≠ "".
Proof.
  intros Hkey. pose proof (JsStringFacts.split_imageKey index mockupIndex) as H.
  by rewrite Hkey in H.
Qed.

(** X13: A click on the backdrop or the close button of UserCaseStudy, with
    the zoom on a mockup or absent, closes the modal with no image zoomed,
    so the modal opens again without a zoom. *)
Theorem user_click_close_clears_zoom w :
  UserView.rendered w = true →
  Invariant.userZoomOnImage w →
  User.isOpen (UserView.clickClose w) = false
  ∧ User.activeImageIndex (UserView.clickClose w) = None
  ∧ User.activeImageIndex (User.openUserCaseStudy (UserView.clickClose w))
    = None.
Proof.
  intros Hr Hz.
  assert (User.activeImageIndex (UserView.clickClose w) = None) as Hnone.
  { unfold UserView.clickClose, UserView.documentClick,
      UserView.zoomListenerAttached, JsOps.truthy. rewrite Hr.
    apply andb_true_iff in Hr as [-> _].
    destruct (User.activeImageIndex w) as [k|] eqn:Hk; [|done].
    destruct (Hz k Hk) as (index & mockupIndex & _ & -> & _).
    rewrite bool_decide_false by apply imageKey_nonempty. done. }
  assert (User.isOpen (UserView.clickClose w) = false) as Hclosed.
  { unfold UserView.clickClose. rewrite Hr. done. }
  split_and!; [done|done|].
  destruct (user_open_keeps_zoom (UserView.clickClose w) Hclosed)
    as (_ & _ & ->).
  done.
Qed.

(** ** Scroll lock *)

Section scroll_lock.
Import ScrollLock.

Lemma step_lock_needs_open e p :
  (overflow p = "hidden" → anyOpen p) →
  overflow (step e p) = "hidden" → anyOpen (step e p).
Proof.
  unfold anyOpen. intros Hp.
  destruct e as [[] []|[]]; simpl;
    destruct (admin p) as [[]|] eqn:Ha; destruct (user p) as [[]|] eqn:Hu;
    simpl; rewrite ?Ha, ?Hu; try (intros ?; simplify_eq/=; by auto);
    intros Hh; destruct (Hp Hh); simplify_eq/=.
Qed.

(** X14: Whatever the order in which the two modals are mounted, rendered
    open or closed and unmounted, the body is never left locked with no
    modal open. *)
Theorem scroll_never_locked_without_modal events p :
  (overflow p = "hidden" → anyOpen p) →
  overflow (run events p) = "hidden" → anyOpen (run events p).
Proof.
  revert p. induction events as [|e events IH]; intros p Hp; [done|].
  simpl. apply IH. by apply step_lock_needs_open.
Qed.

Lemma step_agrees m e p : about m e → agrees m p → agrees m (step e p).
Proof.
  unfold agrees, about. intros He Hp.
  destruct p as [o a u]. simpl in *.
  destruct m, e as [[] b|[]]; simplify_eq/=;
    repeat match goal with
    | x : option bool |- _ => destruct x as [[]|]
    | x : bool |- _ => destruct x
    end; simpl in *; done.
Qed.

Lemma run_agrees m events q :
  Forall (about m) events → agrees m q → agrees m (run events q).
Proof.
  intros Hev. revert q.
  induction Hev as [|e events He _ IH]; intros q Hq; [exact Hq|].
  apply (IH (step e q)). by apply step_agrees.
Qed.

(** X15: From the mount of one modal on, and as long as the other modal's
    effect does not run, the body is locked exactly while that modal is
    mounted and open: closing and unmounting both unlock it. *)
Theorem scroll_lock_follows_modal m b events p :
  mounted m p = None →
  Forall (about m) events →
  agrees m (run (Render m b :: events) p).
Proof.
  intros Hm Hev.
  apply (run_agrees m events (step (Render m b) p) Hev).
  unfold agrees, step. rewrite Hm. by destruct m, b.
Qed.

End scroll_lock.

(** ** Project cards *)

(** X16: A card of the project with id 2 opens its case study and leaves the
    project modal alone.  A card of any other project opens the project
    modal on the app's [modalContent] with [type] set to the kind of the
    card and [stack] replaced by the project's tags: the [stack] the
    [modalContent] itself lists never reaches the modal. *)
Theorem card_click_dispatch :
  (∀ project s,
     Projects.id project = 2 →
     Projects.clickUserCard project s = Projects.setUserCaseStudyOpen true s
     ∧ Projects.clickAdminCard project s
       = Projects.setAdminCaseStudyOpen true s)
  ∧ (∀ project s,
       Projects.id project ≠ 2 →
       ∃ data,
         Projects.clickUserCard project s = Projects.openProjectModal data s
         ∧ data !! "type" = Some (Projects.VString "User App")
         ∧ data !! "stack" = Some (Projects.VList (Projects.tags project))
         ∧ ∀ k, k ≠ "type" → k ≠ "stack" →
                data !! k
                = Projects.modalContent (Projects.userApp project) !! k)
  ∧ (∀ project s,
       Projects.id project ≠ 2 →
       ∃ data,
         Projects.clickAdminCard project s = Projects.openProjectModal data s
         ∧ data !! "type" = Some (Projects.VString "Admin App")
         ∧ data !! "stack" = Some (Projects.VList (Projects.tags project))
         ∧ ∀ k, k ≠ "type" → k ≠ "stack" →
                data !! k
                = Projects.modalContent (Projects.adminApp project) !! k).
Proof.
  split_and!.
  - intros project s Hid.
    unfold Projects.clickUserCard, Projects.clickAdminCard.
    by rewrite !bool_decide_true.
  - intros project s Hid.
    exists (Projects.projectData (Projects.userApp project) "User App" project).
    unfold Projects.clickUserCard.
    rewrite bool_decide_false by done. split; [done|].
    unfold Projects.projectData. split_and!.
    + by rewrite lookup_insert_ne, lookup_insert_eq.
    + by rewrite lookup_insert_eq.
    + intros k ??. by rewrite !lookup_insert_ne.
  - intros project s Hid.
    exists (Projects.projectData (Projects.adminApp project) "Admin App" project).
    unfold Projects.clickAdminCard.
    rewrite bool_decide_false by done. split; [done|].
    unfold Projects.projectData. split_and!.
    + by rewrite lookup_insert_ne, lookup_insert_eq.
    + by rewrite lookup_insert_eq.
    + intros k ??. by rewrite !lookup_insert_ne.
Qed.

(** X17: The timeout [closeProjectModal] sets is never cancelled: when the
    modal is opened again before it fires, the modal stays open and loses
    its project once it fires; when the timeout fires first, the project
    opened afterwards stays. *)
Theorem reopen_before_timeout_loses_project s data :
  let early :=
    Projects.timeout
      (Projects.openProjectModal data (Projects.closeProjectModal s)) in
  let late :=
    Projects.openProjectModal data
      (Projects.timeout (Projects.closeProjectModal s)) in
  (Projects.projectModalOpen early = true
   ∧ Projects.currentProject early = None)
  ∧ (Projects.projectModalOpen late = true
     ∧ Projects.currentProject late = Some data).
Proof. done. Qed.

(** ** Accordion of the About section *)

Lemma filter_unique_id (sections : list AboutMe.Section_) (v : Z) :
  NoDup (AboutMe.id <$> sections) →
  (length (filter (λ section, Some v = Some (AboutMe.id section)) sections)
   ≤ 1)%nat
  ∧ (v ∉ AboutMe.id <$> sections →
     filter (λ section, Some v = Some (AboutMe.id section)) sections = []).
Proof.
  induction sections as [|x l IH]; simpl.
  { intros _. split; [simpl; lia|done]. }
  rewrite NoDup_cons. intros [Hx Hl]. destruct (IH Hl) as [Hlen Hnil].
  rewrite filter_cons. split.
  - case_decide as Hv; [|done]. injection Hv as ->.
    rewrite Hnil by done. simpl. lia.
  - rewrite not_elem_of_cons. intros [Hv Hnot].
    rewrite decide_False by congruence. auto.
Qed.

Lemma expanded_at_most_one bioSections openSection :
  NoDup (AboutMe.id <$> bioSections) →
  (length (AboutMe.expanded bioSections openSection) ≤ 1)%nat.
Proof.
  intros Hids. unfold AboutMe.expanded. destruct openSection as [v|].
  - by apply filter_unique_id.
  - clear Hids. induction bioSections as [|x l IH]; [simpl; lia|].
    by rewrite filter_cons, decide_False.
Qed.

Lemma accordion_run_member bioSections positions openSection :
  (∀ v, openSection = Some v → v ∈ AboutMe.id <$> bioSections) →
  ∀ v, AboutMe.run bioSections positions openSection = Some v →
       v ∈ AboutMe.id <$> bioSections.
Proof.
  unfold AboutMe.run. revert openSection.
  induction positions as [|position positions IH];
    intros openSection Hopen; [done|].
  simpl. apply IH. intros v. unfold AboutMe.click, AboutMe.toggleSection.
  destruct (bioSections !! position) as [section|] eqn:Hs; [|by auto].
  case_bool_decide; [done|]. intros [= <-].
  apply list_elem_of_fmap. exists section. split; [done|].
  by eapply list_elem_of_lookup_2.
Qed.

(** X18: After any clicks on the headers of the accordion, no section or one
    of the sections is open, and with distinct section ids at most one
    section is drawn expanded. *)
Theorem accordion_one_section bioSections positions openSection :
  NoDup (AboutMe.id <$> bioSections) →
  (∀ v, openSection = Some v → v ∈ AboutMe.id <$> bioSections) →
  let final := AboutMe.run bioSections positions openSection in
  (∀ v, final = Some v → v ∈ AboutMe.id <$> bioSections)
  ∧ (length (AboutMe.expanded bioSections final) ≤ 1)%nat.
Proof.
  intros Hids Hopen final. split.
  - by apply accordion_run_member.
  - by apply expanded_at_most_one.
Qed.

(** ** Contact form *)

Lemma contact_run_lookup events s name :
  Contact.formData (Contact.run events s) !! name
  = match Contact.lastTyped name events with
    | Some v => Some v
    | None => Contact.formData s !! name
    end.
Proof.
  unfold Contact.run. revert s.
  induction events as [|e events IH]; intros s; [done|].
  simpl. rewrite IH. destruct (Contact.lastTyped name events); [done|].
  destruct e as [name' value| | |]; simpl; try done.
  case_bool_decide as Hn.
  - subst. by rewrite lookup_insert_eq.
  - by rewrite lookup_insert_ne.
Qed.

(** X19: Whatever is typed, focused, blurred and submitted, each field of the
    form holds the value last typed into it, and the empty string if
    nothing was: typing in one field never changes another, and a submit
    neither clears nor alters the form. *)
Theorem form_holds_last_typed events name :
  name ∈ Contact.inputs →
  Contact.formData (Contact.run events Contact.initial) !! name
  = Some (default "" (Contact.lastTyped name events)).
Proof.
  intros Hname. rewrite contact_run_lookup.
  destruct (Contact.lastTyped name events); [done|].
  unfold Contact.inputs in Hname.
  repeat (apply elem_of_cons in Hname as [->|Hname]; [done|]).
  by apply elem_of_nil in Hname.
Qed.

Lemma contact_step_dom e s :
  Contact.fromForm e →
  dom (Contact.formData s) = list_to_set Contact.inputs →
  dom (Contact.isFocused s) = list_to_set Contact.inputs →
  dom (Contact.formData (Contact.step e s)) = list_to_set Contact.inputs
  ∧ dom (Contact.isFocused (Contact.step e s)) = list_to_set Contact.inputs.
Proof.
  intros He Hd Hf.
  assert (∀ k : string, k ∈ Contact.inputs →
            {[k]} ∪ list_to_set Contact.inputs
            =@{gset string} list_to_set Contact.inputs) as Hin.
  { intros k Hk. apply subseteq_union_1_L, singleton_subseteq_l.
    by apply elem_of_list_to_set. }
  destruct e as [name value|field|field|]; simpl in *;
    rewrite ?dom_insert_L, ?Hd, ?Hf, ?Hin; done.
Qed.

(** X20: Events of the form's three inputs never add a field to the form data
    or to the focus flags, nor remove one: both keep exactly the fields
    [name], [email] and [message]. *)
Theorem form_fields_fixed events :
  Forall Contact.fromForm events →
  dom (Contact.formData (Contact.run events Contact.initial))
  = list_to_set Contact.inputs
  ∧ dom (Contact.isFocused (Contact.run events Contact.initial))
    = list_to_set Contact.inputs.
Proof.
  intros Hev. unfold Contact.run.
  assert (dom (Contact.formData Contact.initial) = list_to_set Contact.inputs
          ∧ dom (Contact.isFocused Contact.initial)
            = list_to_set Contact.inputs) as Hinit.
  { split; by vm_compute. }
  revert Hinit. generalize Contact.initial.
  induction Hev as [|e events He _ IH]; intros s [Hd Hf]; [done|].
  simpl. apply IH. by apply contact_step_dom.
Qed.

(** ** What the frames of AdminCaseStudy show *)

Section admin_frames.
Import Admin AdminFrames.

Lemma frameOffset_S cs p panel :
  panels cs !! p = Some panel →
  frameOffset cs (S p) = (frameOffset cs p + length (mockups panel))%nat.
Proof.
  intros Hp. unfold frameOffset. rewrite (take_S_r _ _ _ Hp).
  rewrite fmap_app, sum_list_with_app. simpl. lia.
Qed.

Lemma frameOffset_mono cs p q :
  (p ≤ q)%nat → (frameOffset cs p ≤ frameOffset cs q)%nat.
Proof.
  induction 1 as [|q _ IH]; [done|].
  destruct (panels cs !! q) as [panel|] eqn:Hq.
  - rewrite (frameOffset_S _ _ _ Hq). lia.
  - apply lookup_ge_None in Hq. unfold frameOffset in *.
    rewrite (take_ge (panels cs) (S q)) by lia.
    by rewrite (take_ge (panels cs) q) in IH by lia.
Qed.

(** A frame's index, through its panel and its position in it. *)
Lemma frame_position cs i c :
  frames (Some cs) !! i = Some (Content c) →
  ∃ panel mk,
    panels cs !! panelIndex c = Some panel
    ∧ mockups panel !! (imageNumber c - 1)%nat = Some mk
    ∧ (1 ≤ imageNumber c)%nat
    ∧ i = (frameOffset cs (panelIndex c) + (imageNumber c - 1))%nat
    ∧ totalImages c = length (mockups panel)
    ∧ isFirstInPanel c = bool_decide (imageNumber c = 1%nat)
    ∧ panelTitle c = title panel
    ∧ frameDescription c = description panel.
Proof.
  intros Hi.
  destruct (frames_lookup_inv _ _ _ Hi)
    as [[_ ?]|(p & panel & m & mk & Hp & Hm & -> & Hc)]; [done|].
  injection Hc as ->. simpl. exists panel, mk.
  replace (m + 1 - 1)%nat with m by lia. split_and!; try done; [lia|].
  apply bool_decide_ext. lia.
Qed.

(** X21: The frames follow the panels, and within a panel the mockups: of two
    content frames, the later one belongs to a later panel or is a later
    image of the same panel. *)
Theorem frames_ordered cs i j c c' :
  frames (Some cs) !! i = Some (Content c) →
  frames (Some cs) !! j = Some (Content c') →
  (i < j)%nat →
  (panelIndex c < panelIndex c')%nat
  ∨ (panelIndex c = panelIndex c' ∧ (imageNumber c < imageNumber c')%nat).
Proof.
  intros (panel & mk & Hp & Hm & H1 & -> & _)%frame_position
         (panel' & mk' & Hp' & Hm' & H1' & -> & _)%frame_position Hij.
  apply lookup_lt_Some in Hm, Hm'.
  destruct (decide (panelIndex c < panelIndex c')%nat); [by left|].
  destruct (decide (panelIndex c = panelIndex c')) as [Heq|Hne].
  - right. split; [done|]. rewrite Heq in Hij. lia.
  - exfalso.
    pose proof (frameOffset_mono cs (S (panelIndex c')) (panelIndex c)).
    rewrite (frameOffset_S _ _ _ Hp') in *. lia.
Qed.

(** X22: A panel's title and description are shown on the frame of its first
    mockup and on no other frame.  So a panel without mockups has no frame
    and shows nothing in AdminCaseStudy, although it counts as a page of
    UserCaseStudy. *)
Theorem panel_header_shown_once :
  (∀ cs p panel mk,
     panels cs !! p = Some panel → mockups panel !! 0%nat = Some mk →
     AdminView.panelHeaderShown <$> frames (Some cs) !! frameOffset cs p
     = Some (Some (title panel, description panel)))
  ∧ (∀ cs i c,
       frames (Some cs) !! i = Some (Content c) →
       i ≠ frameOffset cs (panelIndex c) →
       AdminView.panelHeaderShown (Content c) = None)
  ∧ (∀ cs p panel i c,
       panels cs !! p = Some panel → mockups panel = [] →
       frames (Some cs) !! i = Some (Content c) →
       panelIndex c ≠ p)
  ∧ (∀ cs, User.totalPanels cs = (1 + length (panels cs))%nat).
Proof.
  split_and!.
  - intros cs p panel mk Hp Hm.
    pose proof (frames_lookup_mockup cs p panel 0 mk Hp Hm) as Hf.
    rewrite Nat.add_0_r in Hf. by rewrite Hf.
  - intros cs i c (panel & mk & Hp & Hm & H1 & -> & _ & Hfirst & _)%frame_position
      Hi.
    simpl. rewrite Hfirst, bool_decide_false; [done|]. lia.
  - intros cs p panel i c Hp Hnil
      (panel' & mk & Hp' & Hm & _)%frame_position <-.
    rewrite Hp in Hp'. injection Hp' as <-. by rewrite Hnil in Hm.
  - intros cs. unfold User.totalPanels. lia.
Qed.

(** X23: The progress label of a frame is shown exactly when the frame's
    panel has more than one mockup, and then reads the position of the
    image in the panel, from 1 up to the number of mockups of the
    panel. *)
Theorem progress_label_shown cs i c :
  frames (Some cs) !! i = Some (Content c) →
  ∃ panel,
    panels cs !! panelIndex c = Some panel
    ∧ (1 ≤ imageNumber c ≤ length (mockups panel))%nat
    ∧ AdminView.progressShown (Content c)
      = if decide (1 < length (mockups panel))%nat
        then Some (imageNumber c, length (mockups panel))
        else None.
Proof.
  intros (panel & mk & Hp & Hm & H1 & _ & Htotal & _)%frame_position.
  exists panel. apply lookup_lt_Some in Hm.
  split; [done|]. split; [lia|].
  unfold AdminView.progressShown. rewrite Htotal.
  case_bool_decide; case_decide; try lia; done.
Qed.

End admin_frames.

(** ** The properties above at sample input *)

Lemma navigate_then_scroll_agrees_witness :
  let settled :=
    Admin.setContainer (Some Sample2.atFrame3)
      (Admin.navigateToFrame (Js.Num 3) Sample.adminOpen) in
  Admin.currentFrame settled = Js.Num 3
  ∧ Admin.handleScroll settled = settled.
Proof.
  apply (proj1 navigate_then_scroll_agrees
           Sample.adminOpen Sample.desktop Sample2.atFrame3 3);
    by vm_compute.
Defined.

Lemma open_then_scroll_keeps_first_witness :
  Admin.isOpen Sample2.adminClosing = false
  ∧ Admin.scrollContainerRef Sample2.adminClosing = Some Sample.scrolledDown
  ∧ Admin.scrollContainerRef (Admin.openAdminCaseStudy Sample2.adminClosing)
    = Some (scrollToOrigin Sample.scrolledDown)
  ∧ Admin.currentFrame (Admin.openAdminCaseStudy Sample2.adminClosing)
    = Js.Num 0
  ∧ Admin.handleScroll (Admin.openAdminCaseStudy Sample2.adminClosing)
    = Admin.openAdminCaseStudy Sample2.adminClosing.
Proof.
  split; [reflexivity|]. split; [reflexivity|].
  apply (proj1 open_then_scroll_keeps_first
           Sample2.adminClosing Sample.scrolledDown);
    by vm_compute.
Defined.

Lemma navigate_guard_and_NaN_witness :
  Admin.currentFrame Sample2.adminNaN = Js.NaN
  ∧ Admin.handleKeyDown false "ArrowRight" Sample2.adminNaN
    = Admin.setCurrentFrame Js.NaN
        (Admin.scrollTo (ScrollLeft Js.NaN) Sample2.adminNaN).
Proof.
  split; [reflexivity|].
  apply (proj1 (proj2 navigate_guard_and_NaN)
           Sample2.adminNaN Sample.desktop false "ArrowRight");
    [reflexivity|reflexivity|by left].
Defined.

Lemma user_click_close_clears_zoom_witness :
  User.isOpen (UserView.clickClose Sample.userZoomed) = false
  ∧ User.activeImageIndex (UserView.clickClose Sample.userZoomed) = None
  ∧ User.activeImageIndex
      (User.openUserCaseStudy (UserView.clickClose Sample.userZoomed))
    = None.
Proof.
  apply user_click_close_clears_zoom; [reflexivity|].
  intros k Hk. exists 1%nat, 0%nat, (Sample.shot "list").
  split; [|reflexivity]. vm_compute in Hk. injection Hk as <-. reflexivity.
Defined.

Lemma scroll_never_locked_without_modal_witness :
  ScrollLock.overflow (ScrollLock.run Sample2.lockEvents Sample2.page) = "hidden"
  ∧ ScrollLock.anyOpen (ScrollLock.run Sample2.lockEvents Sample2.page).
Proof.
  split; [reflexivity|].
  apply scroll_never_locked_without_modal; [|reflexivity].
  intros H. discriminate H.
Defined.

Lemma scroll_lock_follows_modal_witness :
  ScrollLock.agrees ScrollLock.AdminModal
    (ScrollLock.run
       (ScrollLock.Render ScrollLock.AdminModal false :: Sample2.adminLockEvents)
       Sample2.page).
Proof.
  apply scroll_lock_follows_modal; [reflexivity|].
  repeat constructor.
Defined.

Lemma accordion_one_section_witness :
  let final := AboutMe.run Sample2.bioSections [1; 1; 2; 7; 0]%nat (Some 0) in
  (∀ v, final = Some v → v ∈ AboutMe.id <$> Sample2.bioSections)
  ∧ (length (AboutMe.expanded Sample2.bioSections final) ≤ 1)%nat.
Proof.
  apply accordion_one_section.
  - apply (bool_decide_unpack _). by vm_compute.
  - intros v [= <-]. apply (bool_decide_unpack _). by vm_compute.
Defined.

Lemma form_holds_last_typed_witness :
  Contact.formData (Contact.run Sample2.formEvents Contact.initial) !! "name"
  = Some "Ada".
Proof.
  apply (form_holds_last_typed Sample2.formEvents "name").
  apply (bool_decide_unpack _). by vm_compute.
Defined.

Lemma form_fields_fixed_witness :
  dom (Contact.formData (Contact.run Sample2.formEvents Contact.initial))
  = list_to_set Contact.inputs
  ∧ dom (Contact.isFocused (Contact.run Sample2.formEvents Contact.initial))
    = list_to_set Contact.inputs.
Proof.
  apply form_fields_fixed.
  unfold Sample2.formEvents.
  repeat constructor; simpl; apply (bool_decide_unpack _); by vm_compute.
Defined.

Lemma frames_ordered_witness :
  ∃ c c',
    Admin.frames (Some Sample.twoPanels) !! 1%nat = Some (Admin.Content c)
    ∧ Admin.frames (Some Sample.twoPanels) !! 3%nat = Some (Admin.Content c')
    ∧ ((Admin.panelIndex c < Admin.panelIndex c')%nat
       ∨ (Admin.panelIndex c = Admin.panelIndex c'
          ∧ (Admin.imageNumber c < Admin.imageNumber c')%nat)).
Proof.
  eexists _, _. split; [reflexivity|]. split; [reflexivity|].
  apply (frames_ordered Sample.twoPanels 1 3); [reflexivity|reflexivity|lia].
Defined.

Lemma progress_label_shown_witness :
  ∃ c panel,
    Admin.frames (Some Sample.twoPanels) !! 3%nat = Some (Admin.Content c)
    ∧ panels Sample.twoPanels !! Admin.panelIndex c = Some panel
    ∧ (1 ≤ Admin.imageNumber c ≤ length (mockups panel))%nat
    ∧ AdminView.progressShown (Admin.Content c)
      = if decide (1 < length (mockups panel))%nat
        then Some (Admin.imageNumber c, length (mockups panel))
        else None.
Proof.
  eexists. 
  destruct (progress_label_shown Sample.twoPanels 3 _ eq_refl) as [panel H].
  exists panel. split; [reflexivity|exact H].
Defined.

Lemma dots_mark_current_witness :
  AdminView.dots Sample.adminOpen !! 2%nat = Some true
  ∧ AdminView.dots (Admin.handleScroll Sample.adminScrolled) !! 4%nat
    ≠ Some true.
Proof.
  destruct dots_mark_current as (_ & Hin & Hout & _).
  split_and!.
  - apply (Hin Sample.adminOpen 2 2%nat); [reflexivity|by vm_compute|reflexivity].
  - apply (Hout (Admin.handleScroll Sample.adminScrolled) 4%nat).
    intros (i & Hi & Hrange). vm_compute in Hi. injection Hi as <-.
    vm_compute in Hrange. by destruct Hrange as [_ []].
Defined.

Lemma arrows_move_by_one_witness :
  AdminView.prevArrowShown Sample.adminOpen = true
  ∧ AdminView.nextArrowShown Sample.adminOpen = true
  ∧ Admin.currentFrame (AdminView.clickPrev Sample.adminOpen) = Js.Num 1
  ∧ Admin.currentFrame (AdminView.clickNext Sample.adminOpen) = Js.Num 3.
Proof.
  apply (proj1 arrows_move_by_one Sample.adminOpen Sample.desktop 2);
    by vm_compute.
Defined.

Lemma card_click_dispatch_witness :
  Projects.clickUserCard Sample2.medical Projects.initial
  = Projects.setUserCaseStudyOpen true Projects.initial
  ∧ ∃ data,
      Projects.clickAdminCard Sample2.bookstore Projects.initial
      = Projects.openProjectModal data Projects.initial
      ∧ data !! "type" = Some (Projects.VString "Admin App")
      ∧ data !! "stack"
        = Some (Projects.VList ["React"; "Tailwind CSS"; "Spring Boot"]).
Proof.
  destruct card_click_dispatch as (Hcase & _ & Hadmin).
  split.
  - apply (Hcase Sample2.medical Projects.initial). reflexivity.
  - destruct (Hadmin Sample2.bookstore Projects.initial)
      as (data & Hclick & Htype & Hstack & _); [discriminate|].
    by exists data.
Defined.

Lemma panel_header_shown_once_witness :
  AdminView.panelHeaderShown
    <$> Admin.frames (Some Sample.twoPanels) !! 2%nat
  = Some (Some ("Courses", "Course management")).
Proof.
  apply (proj1 panel_header_shown_once Sample.twoPanels 1%nat
           {| label := "Feature 02"; title := "Courses";
              description := "Course management";
              mockups := [Sample.shot "list"; Sample.shot "edit";
                          Sample.shot "stats"] |}
           (Sample.shot "list")); reflexivity.
Defined.

(** ** Arrow keys *)

(** X4: ArrowRight and ArrowDown move the index one up, ArrowLeft and ArrowUp
    one down, whenever the target is in range and the container mounted;
    the scroll is requested along the axis of the layout flag the key
    listener captured, which after a resize need not be the current one.
    ArrowLeft and ArrowUp at index 0 change nothing, and neither does a key
    other than Escape and the four arrows. *)
Theorem arrow_keys_move_by_one :
  (∀ w c v i key,
     Admin.scrollContainerRef w = Some c →
     Admin.currentFrame w = Js.Num i →
     key = "ArrowRight" ∨ key = "ArrowDown" →
     0 ≤ i + 1 < Z.of_nat (Admin.frameCount w) →
     Admin.handleKeyDown v key w
     = Admin.setCurrentFrame (Js.Num (i + 1))
         (Admin.scrollTo (scrollRequest v c (i + 1)) w))
  ∧ (∀ w c v i key,
       Admin.scrollContainerRef w = Some c →
       Admin.currentFrame w = Js.Num i →
       key = "ArrowLeft" ∨ key = "ArrowUp" →
       0 ≤ i - 1 < Z.of_nat (Admin.frameCount w) →
       Admin.handleKeyDown v key w
       = Admin.setCurrentFrame (Js.Num (i - 1))
           (Admin.scrollTo (scrollRequest v c (i - 1)) w))
  ∧ (∀ w v key,
       Admin.currentFrame w = Js.Num 0 →
       key = "ArrowLeft" ∨ key = "ArrowUp" →
       Admin.handleKeyDown v key w = w)
  ∧ (∀ w u v key,
       key ∉ ["Escape"; "ArrowRight"; "ArrowDown"; "ArrowLeft"; "ArrowUp"] →
       Admin.handleKeyDown v key w = w ∧ User.handleKeyDown v key u = u)
  ∧ (∀ w c v i key,
       User.scrollContainerRef w = Some c →
       User.currentPanel w = Js.Num i →
       key = "ArrowRight" ∨ key = "ArrowDown" →
       0 ≤ i + 1 < Z.of_nat (User.frameCount w) →
       User.handleKeyDown v key w
       = User.setCurrentPanel (Js.Num (i + 1))
           (User.scrollTo (scrollRequest v c (i + 1)) w))
  ∧ (∀ w c v i key,
       User.scrollContainerRef w = Some c →
       User.currentPanel w = Js.Num i →
       key = "ArrowLeft" ∨ key = "ArrowUp" →
       0 ≤ i - 1 < Z.of_nat (User.frameCount w) →
       User.handleKeyDown v key w
       = User.setCurrentPanel (Js.Num (i - 1))
           (User.scrollTo (scrollRequest v c (i - 1)) w))
  ∧ (∀ w v key,
       User.currentPanel w = Js.Num 0 →
       key = "ArrowLeft" ∨ key = "ArrowUp" →
       User.handleKeyDown v key w = w).
Proof.
  split_and!.
  - intros w c v i key Hc Hcur [-> | ->] Hi; unfold Admin.handleKeyDown;
      simpl; rewrite Hcur; by apply admin_navigate_valid.
  - intros w c v i key Hc Hcur [-> | ->] Hi; unfold Admin.handleKeyDown;
      simpl; rewrite Hcur; by apply admin_navigate_valid.
  - intros w v key Hcur [-> | ->]; unfold Admin.handleKeyDown;
      simpl; rewrite Hcur; apply admin_navigate_out_of_range; lia.
  - intros w u v key Hkey. rewrite !not_elem_of_cons in Hkey.
    destruct Hkey as (? & ? & ? & ? & ? & _).
    unfold Admin.handleKeyDown, User.handleKeyDown.
    by rewrite !bool_decide_false.
  - intros w c v i key Hc Hcur [-> | ->] Hi;
      unfold User.handleKeyDown, User.frameCount in *; simpl; rewrite Hcur;
      (destruct (User.caseStudy w) as [cs|]; [|simpl in Hi; lia]);
      by apply user_navigate_valid.
  - intros w c v i key Hc Hcur [-> | ->] Hi;
      unfold User.handleKeyDown, User.frameCount in *; simpl; rewrite Hcur;
      (destruct (User.caseStudy w) as [cs|]; [|simpl in Hi; lia]);
      by apply user_navigate_valid.
  - intros w v key Hcur [-> | ->]; unfold User.handleKeyDown;
      simpl; rewrite Hcur;
      (destruct (User.caseStudy w) as [cs|]; [|done]);
      apply user_navigate_out_of_range; lia.
Qed.

Lemma arrow_keys_move_by_one_witness :
  Admin.handleKeyDown true "ArrowDown" Sample.adminOpen
  = Admin.setCurrentFrame (Js.Num 3)
      (Admin.scrollTo (ScrollTop (Js.Num 2160)) Sample.adminOpen)
  ∧ Admin.isVerticalLayout Sample.adminOpen = false.
Proof.
  split; [|reflexivity].
  apply (proj1 arrow_keys_move_by_one Sample.adminOpen Sample.desktop true 2);
    [reflexivity|reflexivity|by right|by vm_compute].
Defined.

(** ** Sessions of AdminCaseStudy *)

Section admin_sessions.
Import Admin AdminView.

Lemma admin_step_caseStudy e s :
  caseStudy (modal (step e s)) = caseStudy (modal s).
Proof.
  destruct s as [w d].
  destruct e; simpl; unfold onDom; simpl;
    try (destruct d as [r|]; simpl); try done;
    unfold keydown, handleKeyDown, clickPrevOn, clickNextOn, clickDotOn,
      clickImageOn, openAdminCaseStudy, resetOnOpen;
    repeat case_match; simpl; try done;
    apply admin_navigate_keeps.
Qed.

(** The DOM after a step shows the new state or is the DOM that was
    there. *)
Lemma admin_step_dom e s r' :
  dom (step e s) = Some r' → r' = modal (step e s) ∨ dom s = Some r'.
Proof.
  assert (∀ w d, dom (commit w d) = Some r' →
                 r' = modal (commit w d) ∨ d = Some r') as Hcommit.
  { intros w d. unfold commit. simpl.
    repeat case_match; intros Hdom; simplify_eq; auto. }
  destruct s as [w d].
  destruct e; simpl; unfold onDom; simpl;
    try (destruct d as [r|]; simpl); try apply Hcommit; auto;
    repeat case_match; simpl; intros Hd; simplify_eq; auto.
Qed.

(** A click handled by a render with the content of the state and an
    index in range leaves the index of the state in range. *)
Lemma admin_click_range r w :
  caseStudy r = caseStudy w →
  Invariant.adminInRange r →
  Invariant.adminInRange w →
  Invariant.adminInRange (clickPrevOn r w)
  ∧ Invariant.adminInRange (clickNextOn r w)
  ∧ (∀ index, Invariant.adminInRange (clickDotOn r index w))
  ∧ (∀ frameIndex, Invariant.adminInRange (clickImageOn r frameIndex w)).
Proof.
  unfold Invariant.adminInRange, frameCount. intros Hr Hrin Hin.
  destruct (neighbours_integer _ _ Hrin) as [Hnext Hprev].
  assert (∀ v idx, (∃ i, idx = Js.Num i) →
            let w' := navigateToFrame_closure
                        (length (frames (caseStudy w))) v idx w in
            inFrameRange (currentFrame w') (length (frames (caseStudy w'))))
    as Hnav.
  { intros v idx Hidx.
    destruct (admin_navigate_keeps (length (frames (caseStudy w))) v idx w)
      as (Hcs & _ & _ & Hrange).
    simpl. rewrite Hcs. by apply Hrange. }
  unfold clickPrevOn, clickNextOn, clickDotOn, clickImageOn. rewrite Hr.
  split_and!; intros; repeat case_match; try done; apply Hnav; eauto.
Qed.

Lemma admin_step_range e s :
  is_Some (caseStudy (modal s)) →
  Invariant.adminInRange (modal s) →
  Invariant.adminDom Invariant.adminInRange s →
  Invariant.adminInRange (modal (step e s)).
Proof.
  intros Hcs Hin Hdom.
  destruct s as [w d]. simpl in Hcs, Hin.
  assert (∀ r, d = Some r → caseStudy r = caseStudy w
                            ∧ Invariant.adminInRange r) as Hd
    by exact Hdom.
  destruct e as [v key| | |index|frameIndex| |innerWidth|c| |c]; simpl;
    unfold onDom; simpl.
  - unfold keydown. case_match; [|done].
    destruct (neighbours_integer _ _ Hin) as [Hnext Hprev].
    unfold Invariant.adminInRange, frameCount in *.
    unfold handleKeyDown. repeat case_match; try done.
    + destruct (admin_navigate_keeps (length (frames (caseStudy w))) v
                  (Js.add (currentFrame w) (Js.Num 1)) w)
        as (Hcs' & _ & _ & Hrange).
      simpl in *. rewrite Hcs'. by apply Hrange.
    + destruct (admin_navigate_keeps (length (frames (caseStudy w))) v
                  (Js.sub (currentFrame w) (Js.Num 1)) w)
        as (Hcs' & _ & _ & Hrange).
      simpl in *. rewrite Hcs'. by apply Hrange.
  - destruct d as [r|]; [|done]. destruct (Hd r eq_refl) as [Hr Hrin].
    by apply admin_click_range.
  - destruct d as [r|]; [|done]. destruct (Hd r eq_refl) as [Hr Hrin].
    by apply admin_click_range.
  - destruct d as [r|]; [|done]. destruct (Hd r eq_refl) as [Hr Hrin].
    by apply admin_click_range.
  - destruct d as [r|]; [|done]. destruct (Hd r eq_refl) as [Hr Hrin].
    by apply admin_click_range.
  - by destruct d.
  - done.
  - pose proof (admin_frameCount_pos w Hcs) as Hpos.
    assert (∀ w', caseStudy w' = caseStudy w →
              Invariant.adminInRange w' →
              Invariant.adminInRange (openAdminCaseStudy w')) as Hopen.
    { intros w' Hw' Hin'. unfold openAdminCaseStudy, resetOnOpen. simpl.
      repeat case_match; try done;
        exists 0; (split; [done|]);
        unfold frameCount in *; simpl; rewrite Hw'; lia. }
    repeat case_match; by apply Hopen.
  - by case_match.
  - by destruct d.
Qed.

(** The session of a state has the DOM of that state or none. *)
Lemma admin_session_dom (P : Modal → Prop) w :
  P w → Invariant.adminDom P (session w).
Proof.
  intros Hw r. unfold session, commit. simpl.
  repeat case_match; intros Hr; by simplify_eq.
Qed.

(** X5: Whatever keys, clicks, resizes, openings and re-measurements
    AdminCaseStudy receives, the clicks on the modal that is fading out
    after a close included, the index stays within [0, frames.length - 1]
    and the content stays the same; scrolling is not among these inputs.
    The DOM in the page at the start, if any, is one drawn for the same
    content with an index in range. *)
Theorem admin_index_stays_in_range events s :
  is_Some (caseStudy (modal s)) →
  Invariant.adminInRange (modal s) →
  Invariant.adminDom Invariant.adminInRange s →
  caseStudy (modal (run events s)) = caseStudy (modal s)
  ∧ Invariant.adminInRange (modal (run events s)).
Proof.
  revert s. induction events as [|e events IH]; intros s Hcs Hin Hdom.
  { split; [done|exact Hin]. }
  simpl. pose proof (admin_step_caseStudy e s) as Hcs'.
  pose proof (admin_step_range e s Hcs Hin Hdom) as Hin'.
  destruct (IH (step e s)) as [-> ?]; [by rewrite Hcs'|done| |done].
  intros r' [->|Hr']%admin_step_dom; [done|].
  rewrite Hcs'. by apply Hdom.
Qed.

(** A click on an image handled by a render with the content of the
    state zooms a content frame or clears the zoom; the other handlers
    keep the zoom or clear it. *)
Lemma admin_step_zoom e s :
  Invariant.adminDom (λ _, True) s →
  zoomedFrame (modal (step e s)) = zoomedFrame (modal s)
  ∨ zoomedFrame (modal (step e s)) = None
  ∨ ∃ i c, frames (caseStudy (modal s)) !! i = Some (Content c)
           ∧ zoomedFrame (modal (step e s)) = Some i.
Proof.
  intros Hdom. destruct s as [w d].
  assert (∀ r, d = Some r → caseStudy r = caseStudy w) as Hd.
  { intros r Hr. by apply Hdom. }
  destruct e as [v key| | |index|frameIndex| |innerWidth|c| |c]; simpl;
    unfold onDom; simpl.
  - unfold keydown, handleKeyDown.
    repeat case_match; simpl; auto; left; apply admin_navigate_keeps.
  - destruct d as [r|]; simpl; auto. unfold clickPrevOn.
    case_match; auto. left. apply admin_navigate_keeps.
  - destruct d as [r|]; simpl; auto. unfold clickNextOn.
    case_match; auto. left. apply admin_navigate_keeps.
  - destruct d as [r|]; simpl; auto. unfold clickDotOn.
    case_match; auto. left. apply admin_navigate_keeps.
  - destruct d as [r|]; simpl; auto. unfold clickImageOn.
    rewrite (Hd r eq_refl). repeat case_match; simpl; eauto 10.
  - destruct d as [r|]; simpl; auto.
  - auto.
  - unfold openAdminCaseStudy, resetOnOpen.
    repeat case_match; simpl; auto.
  - case_match; auto.
  - destruct d as [r|]; simpl; auto.
Qed.

(** X7: Whatever keys, clicks, resizes, openings and re-measurements
    AdminCaseStudy receives, the clicks on the modal that is fading out
    after a close included, the zoomed frame is never the intro frame nor
    an index without a frame: it is a content frame or none.  The DOM in
    the page at the start, if any, is one drawn for the same content. *)
Theorem admin_zoom_stays_on_image events s :
  Invariant.adminZoomOnImage (modal s) →
  Invariant.adminDom (λ _, True) s →
  Invariant.adminZoomOnImage (modal (run events s)).
Proof.
  revert s. induction events as [|e events IH]; intros s Hs Hdom.
  { exact Hs. }
  simpl. apply IH.
  - intros i Hi. rewrite admin_step_caseStudy.
    destruct (admin_step_zoom e s Hdom)
      as [Heq | [Hnone | (j & c & Hc & Hj)]].
    + rewrite Heq in Hi. by apply Hs.
    + congruence.
    + rewrite Hj in Hi. injection Hi as <-. by exists c.
  - intros r' [->|Hr']%admin_step_dom; [done|].
    rewrite admin_step_caseStudy. split; [|done]. by apply Hdom.
Qed.

End admin_sessions.

(** ** Sessions of UserCaseStudy *)

Section user_sessions.
Import User UserView.

Lemma user_documentClick_keeps b w :
  caseStudy (documentClick b w) = caseStudy w
  ∧ isOpen (documentClick b w) = isOpen w
  ∧ currentPanel (documentClick b w) = currentPanel w
  ∧ (activeImageIndex (documentClick b w) = activeImageIndex w
     ∨ activeImageIndex (documentClick b w) = None).
Proof.
  unfold documentClick, handleClick. repeat case_match; simpl; auto.
Qed.

Lemma user_step_caseStudy e s :
  caseStudy (modal (step e s)) = caseStudy (modal s).
Proof.
  destruct s as [w d].
  pose proof (user_documentClick_keeps false w) as (Hf & _).
  pose proof (user_documentClick_keeps true w) as (Ht & _).
  destruct e; simpl; unfold onDom; simpl;
    try (destruct d as [r|]; simpl); try done;
    unfold keydown, handleKeyDown, clickPrevOn, clickNextOn, clickDotOn,
      clickMockupOn, openUserCaseStudy, resetOnOpen, onClose;
    repeat case_match; simpl; try done;
    by rewrite ?(proj1 (user_navigate_keeps _ _ _ _)).
Qed.

(** The DOM after a step shows the new state or is the DOM that was
    there. *)
Lemma user_step_dom e s r' :
  dom (step e s) = Some r' → r' = modal (step e s) ∨ dom s = Some r'.
Proof.
  assert (∀ w d, dom (commit w d) = Some r' →
                 r' = modal (commit w d) ∨ d = Some r') as Hcommit.
  { intros w d. unfold commit. simpl.
    repeat case_match; intros Hdom; simplify_eq; auto. }
  destruct s as [w d].
  destruct e; simpl; unfold onDom; simpl;
    try (destruct d as [r|]; simpl); try apply Hcommit; auto;
    repeat case_match; simpl; intros Hd; simplify_eq; auto.
Qed.

Lemma user_frameCount_pos w :
  is_Some (caseStudy w) → (1 ≤ frameCount w)%nat.
Proof.
  intros [cs Hcs]. unfold frameCount, totalPanels. rewrite Hcs. lia.
Qed.

(** A navigation by a closure over the content of the state, with an
    integer index, leaves the index of the state in range. *)
Lemma user_navigate_range v idx w w0 :
  caseStudy w = caseStudy w0 →
  currentPanel w = currentPanel w0 →
  (∃ i, idx = Js.Num i) →
  Invariant.userInRange w0 →
  Invariant.userInRange (navigateToPanel_closure (caseStudy w0) v idx w).
Proof.
  unfold Invariant.userInRange. intros Hcs Hcur Hidx Hin.
  destruct (user_navigate_keeps (caseStudy w0) v idx w)
    as (Hcs' & _ & _ & Hrange).
  assert (frameCount (navigateToPanel_closure (caseStudy w0) v idx w)
          = frameCount w0) as ->.
  { unfold frameCount. by rewrite Hcs', Hcs. }
  apply Hrange; [done| |by rewrite Hcur].
  intros cs' Hcs0. unfold frameCount. by rewrite Hcs0.
Qed.

(** A click handled by a render with the content of the state and an
    index in range leaves the index of the state in range. *)
Lemma user_click_range r w :
  caseStudy r = caseStudy w →
  Invariant.userInRange r →
  Invariant.userInRange w →
  Invariant.userInRange (clickPrevOn r w)
  ∧ Invariant.userInRange (clickNextOn r w)
  ∧ (∀ index, Invariant.userInRange (clickDotOn r index w))
  ∧ (∀ index mockupIndex,
       Invariant.userInRange (clickMockupOn r index mockupIndex w)).
Proof.
  intros Hr Hrin Hin.
  destruct (neighbours_integer _ _ Hrin) as [Hnext Hprev].
  destruct (user_documentClick_keeps false w) as (Hcs & _ & Hcur & _).
  unfold clickPrevOn, clickNextOn, clickDotOn, clickMockupOn. rewrite Hr.
  split_and!; intros; repeat case_match; try done;
    try (apply user_navigate_range; eauto).
  all: unfold Invariant.userInRange, frameCount in *; simpl.
  all: by rewrite (proj1 (user_documentClick_keeps true w)),
         (proj1 (proj2 (proj2 (user_documentClick_keeps true w)))).
Qed.

Lemma user_step_range e s :
  is_Some (caseStudy (modal s)) →
  Invariant.userInRange (modal s) →
  Invariant.userDom Invariant.userInRange s →
  Invariant.userInRange (modal (step e s)).
Proof.
  intros Hcs Hin Hdom.
  destruct s as [w d]. simpl in Hcs, Hin.
  assert (∀ r, d = Some r → caseStudy r = caseStudy w
                            ∧ Invariant.userInRange r) as Hd
    by exact Hdom.
  assert (∀ b, Invariant.userInRange (documentClick b w)) as Hclick.
  { intros b. unfold Invariant.userInRange, frameCount in *.
    destruct (user_documentClick_keeps b w) as (-> & _ & -> & _). done. }
  destruct e as [v key| | |index|index mockupIndex| | |innerWidth|c| |c];
    simpl; unfold onDom; simpl.
  - unfold keydown. case_match; [|done].
    destruct (neighbours_integer _ _ Hin) as [Hnext Hprev].
    unfold handleKeyDown. repeat case_match; try done;
      by apply user_navigate_range.
  - destruct d as [r|]; [|done]. destruct (Hd r eq_refl) as [Hr Hrin].
    by apply user_click_range.
  - destruct d as [r|]; [|done]. destruct (Hd r eq_refl) as [Hr Hrin].
    by apply user_click_range.
  - destruct d as [r|]; [|done]. destruct (Hd r eq_refl) as [Hr Hrin].
    by apply user_click_range.
  - destruct d as [r|]; [|done]. destruct (Hd r eq_refl) as [Hr Hrin].
    by apply user_click_range.
  - apply Hclick.
  - destruct d; [|done]. simpl. apply Hclick.
  - done.
  - pose proof (user_frameCount_pos w Hcs) as Hpos.
    assert (∀ w', caseStudy w' = caseStudy w →
              Invariant.userInRange w' →
              Invariant.userInRange (openUserCaseStudy w')) as Hopen.
    { intros w' Hw' Hin'. unfold openUserCaseStudy, resetOnOpen. simpl.
      repeat case_match; try done;
        exists 0; (split; [done|]);
        unfold frameCount in *; simpl; rewrite Hw'; lia. }
    repeat case_match; by apply Hopen.
  - by case_match.
  - by destruct d.
Qed.

(** The session of a state has the DOM of that state or none. *)
Lemma user_session_dom (P : Modal → Prop) w :
  P w → Invariant.userDom P (session w).
Proof.
  intros Hw r. unfold session, commit. simpl.
  repeat case_match; intros Hr; by simplify_eq.
Qed.

(** X6: Whatever keys, clicks, resizes, openings and re-measurements
    UserCaseStudy receives, the clicks on the modal that is fading out
    after a close included, the index stays within [0, totalPanels - 1]
    and the content stays the same; scrolling is not among these inputs.
    The DOM in the page at the start, if any, is one drawn for the same
    content with an index in range. *)
Theorem user_index_stays_in_range events s :
  is_Some (caseStudy (modal s)) →
  Invariant.userInRange (modal s) →
  Invariant.userDom Invariant.userInRange s →
  caseStudy (modal (run events s)) = caseStudy (modal s)
  ∧ Invariant.userInRange (modal (run events s)).
Proof.
  revert s. induction events as [|e events IH]; intros s Hcs Hin Hdom.
  { split; [done|exact Hin]. }
  simpl. pose proof (user_step_caseStudy e s) as Hcs'.
  pose proof (user_step_range e s Hcs Hin Hdom) as Hin'.
  destruct (IH (step e s)) as [-> ?]; [by rewrite Hcs'|done| |done].
  intros r' [->|Hr']%user_step_dom; [done|].
  rewrite Hcs'. by apply Hdom.
Qed.

(** A click on a mockup handled by a render with the content of the
    state zooms a mockup of the case study or clears the zoom; the other
    handlers keep the zoom or clear it. *)
Lemma user_step_zoom e s :
  Invariant.userDom (λ _, True) s →
  activeImageIndex (modal (step e s)) = activeImageIndex (modal s)
  ∨ activeImageIndex (modal (step e s)) = None
  ∨ ∃ index mockupIndex mk,
      mockupAt (caseStudy (modal s)) index mockupIndex = Some mk
      ∧ activeImageIndex (modal (step e s))
        = Some (imageKey index mockupIndex).
Proof.
  intros Hdom. destruct s as [w d].
  assert (∀ r, d = Some r → caseStudy r = caseStudy w) as Hd.
  { intros r Hr. by apply Hdom. }
  assert (∀ v cs idx b,
            activeImageIndex (navigateToPanel_closure cs v idx
                                (documentClick b w))
            = activeImageIndex w
            ∨ activeImageIndex (navigateToPanel_closure cs v idx
                                  (documentClick b w))
              = None) as Hnav.
  { intros v cs idx b.
    destruct (user_navigate_keeps cs v idx (documentClick b w))
      as (_ & _ & -> & _).
    apply user_documentClick_keeps. }
  destruct e as [v key| | |index|index mockupIndex| | |innerWidth|c| |c];
    simpl; unfold onDom; simpl.
  - unfold keydown, handleKeyDown.
    repeat case_match; simpl; auto; left; apply user_navigate_keeps.
  - destruct d as [r|]; simpl; auto. unfold clickPrevOn.
    case_match; auto. destruct (Hnav (isVerticalLayout r) (caseStudy r)
      (Js.sub (currentPanel r) (Js.Num 1)) false); auto.
  - destruct d as [r|]; simpl; auto. unfold clickNextOn.
    case_match; auto. destruct (Hnav (isVerticalLayout r) (caseStudy r)
      (Js.add (currentPanel r) (Js.Num 1)) false); auto.
  - destruct d as [r|]; simpl; auto. unfold clickDotOn.
    case_match; auto. destruct (Hnav (isVerticalLayout r) (caseStudy r)
      (Js.Num (Z.of_nat index)) false); auto.
  - destruct d as [r|]; simpl; auto. unfold clickMockupOn.
    rewrite (Hd r eq_refl). repeat case_match; simpl; eauto 10.
  - destruct (user_documentClick_keeps false w) as (_ & _ & _ & [?|?]); auto.
  - destruct d as [r|]; simpl; auto.
    destruct (user_documentClick_keeps false w) as (_ & _ & _ & [?|?]); auto.
  - auto.
  - unfold openUserCaseStudy, resetOnOpen.
    repeat case_match; simpl; auto.
  - case_match; auto.
  - destruct d as [r|]; simpl; auto.
Qed.

(** X8: Whatever keys, clicks, resizes, openings and re-measurements
    UserCaseStudy receives, the clicks on the modal that is fading out
    after a close included, the zoomed image is none or the key of a
    mockup the case study has, so its key always reads back as a position.
    The DOM in the page at the start, if any, is one drawn for the same
    content. *)
Theorem user_zoom_stays_on_image events s :
  Invariant.userZoomOnImage (modal s) →
  Invariant.userDom (λ _, True) s →
  Invariant.userZoomOnImage (modal (run events s)).
Proof.
  revert s. induction events as [|e events IH]; intros s Hs Hdom.
  { exact Hs. }
  simpl. apply IH.
  - intros k Hk. rewrite user_step_caseStudy.
    destruct (user_step_zoom e s Hdom)
      as [Heq | [Hnone | (index & mockupIndex & mk & Hmk & Hz)]].
    + rewrite Heq in Hk. by apply Hs.
    + congruence.
    + rewrite Hz in Hk. injection Hk as <-. by exists index, mockupIndex, mk.
  - intros r' [->|Hr']%user_step_dom; [done|].
    rewrite user_step_caseStudy. split; [|done]. by apply Hdom.
Qed.

End user_sessions.

(** ** The invariants on sample sessions *)

Lemma admin_index_stays_in_range_witness :
  let s := AdminView.run Sample2.adminEvents
             (AdminView.session Sample.adminOpen) in
  Admin.isOpen (AdminView.modal s) = false
  ∧ Admin.currentFrame (AdminView.modal s) = Js.Num 1
  ∧ Admin.caseStudy (AdminView.modal s)
    = Admin.caseStudy (AdminView.modal (AdminView.session Sample.adminOpen))
  ∧ Invariant.adminInRange (AdminView.modal s).
Proof.
  split; [reflexivity|]. split; [reflexivity|].
  apply (admin_index_stays_in_range Sample2.adminEvents
           (AdminView.session Sample.adminOpen)).
  - by eexists.
  - exists 2. by vm_compute.
  - intros r Hr. injection Hr as <-. split; [reflexivity|].
    exists 2. by vm_compute.
Defined.

Lemma user_index_stays_in_range_witness :
  let s := UserView.run Sample2.userEvents
             (UserView.session Sample.userOpen) in
  User.isOpen (UserView.modal s) = false
  ∧ User.currentPanel (UserView.modal s) = Js.Num 2
  ∧ User.caseStudy (UserView.modal s)
    = User.caseStudy (UserView.modal (UserView.session Sample.userOpen))
  ∧ Invariant.userInRange (UserView.modal s).
Proof.
  split; [reflexivity|]. split; [reflexivity|].
  apply (user_index_stays_in_range Sample2.userEvents
           (UserView.session Sample.userOpen)).
  - by eexists.
  - exists 1. by vm_compute.
  - intros r Hr. injection Hr as <-. split; [reflexivity|].
    exists 1. by vm_compute.
Defined.

Lemma admin_zoom_stays_on_image_witness :
  let s := AdminView.run Sample2.adminEvents
             (AdminView.session Sample.adminOpen) in
  Admin.isOpen (AdminView.modal s) = false
  ∧ Admin.zoomedFrame (AdminView.modal s) = Some 2%nat
  ∧ Invariant.adminZoomOnImage (AdminView.modal s).
Proof.
  split; [reflexivity|]. split; [reflexivity|].
  apply (admin_zoom_stays_on_image Sample2.adminEvents
           (AdminView.session Sample.adminOpen)).
  - intros i Hi. discriminate Hi.
  - intros r Hr. injection Hr as <-. split; [reflexivity|exact I].
Defined.

Lemma user_zoom_stays_on_image_witness :
  let s := UserView.run Sample2.userEvents
             (UserView.session Sample.userOpen) in
  User.isOpen (UserView.modal s) = false
  ∧ User.activeImageIndex (UserView.modal s) = Some "1-0"
  ∧ Invariant.userZoomOnImage (UserView.modal s).
Proof.
  split; [reflexivity|]. split; [reflexivity|].
  apply (user_zoom_stays_on_image Sample2.userEvents
           (UserView.session Sample.userOpen)).
  - intros k Hk. discriminate Hk.
  - intros r Hr. injection Hr as <-. split; [reflexivity|exact I].
Defined.
